(** * Translate_Final.py: PDF -> Markdown -> translation, as a shallow embedding

    The program is one Streamlit script.  Every user interaction re-runs the
    script from the top against the session state; the script reads widget
    values, calls three external libraries (pdfplumber, requests, openai) and
    emits UI elements.  The embedding keeps that shape:

    - [st.session_state] is a finite map from key names to values;
    - the script is written in a small monad that threads the session state,
      records the calls to Streamlit and to the network in order, and
      propagates Python exceptions until a [try ... except Exception] catches
      them;
    - the external libraries are the fields of a record [World]. *)

From Stdlib Require Import ZArith Ascii String List Bool Lia.
From stdpp Require Import base option list strings pretty sorting gmap.

Set Warnings "-register-all".
Local Open Scope Z_scope.

(** ** Python text

    A Python [str] is represented by the Rocq string of its UTF-8 encoding, so
    that the literals of the script can be written as they are in the source.
    Byte order on such strings is code point order. *)

Definition nl : string := String (ascii_of_nat 10) EmptyString.

Module PyStr.

Definition code (c : ascii) : N := N_of_ascii c.

Definition between (lo hi : N) (c : ascii) : bool :=
  ((lo <=? code c) && (code c <=? hi))%N.

Definition byte (n : N) (c : ascii) : bool := (code c =? n)%N.

(** The code points for which [str.isspace] holds, which are the ones
    [str.strip] removes, by the length of their encoding:
    U+0009..U+000D, U+001C..U+0020;  U+0085, U+00A0;
    U+1680, U+2000..U+200A, U+2028, U+2029, U+202F, U+205F, U+3000. *)
Definition space1 (a : ascii) : bool := between 9 13 a || between 28 32 a.

Definition space2 (a b : ascii) : bool :=
  byte 0xC2 a && (byte 0x85 b || byte 0xA0 b).

Definition space3 (a b c : ascii) : bool :=
  (byte 0xE1 a && byte 0x9A b && byte 0x80 c)
  || (byte 0xE2 a && byte 0x80 b
      && (between 0x80 0x8A c || byte 0xA8 c || byte 0xA9 c || byte 0xAF c))
  || (byte 0xE2 a && byte 0x81 b && byte 0x9F c)
  || (byte 0xE3 a && byte 0x80 b && byte 0x80 c).

(** [str.lstrip()] *)
Fixpoint lstrip_bytes (l : list ascii) : list ascii :=
  match l with
  | [] => []
  | a :: r =>
      if space1 a then lstrip_bytes r else
      match r with
      | [] => l
      | b :: r' =>
          if space2 a b then lstrip_bytes r' else
          match r' with
          | [] => l
          | c :: r'' => if space3 a b c then lstrip_bytes r'' else l
          end
      end
  end.

(** The same scan on the reversed text, where the bytes of a code point
    come last byte first. *)
Fixpoint lstrip_rev_bytes (l : list ascii) : list ascii :=
  match l with
  | [] => []
  | z :: r =>
      if space1 z then lstrip_rev_bytes r else
      match r with
      | [] => l
      | y :: r' =>
          if space2 y z then lstrip_rev_bytes r' else
          match r' with
          | [] => l
          | x :: r'' => if space3 x y z then lstrip_rev_bytes r'' else l
          end
      end
  end.

Definition rstrip_bytes (l : list ascii) : list ascii :=
  rev (lstrip_rev_bytes (rev l)).

(** [s.strip()] *)
Definition strip (s : string) : string :=
  string_of_list_ascii (rstrip_bytes (lstrip_bytes (list_ascii_of_string s))).

(** [sep.join(parts)] *)
Definition join (sep : string) (parts : list string) : string :=
  String.concat sep parts.

(** [str(i)] and [f"{i}"] for an [int] *)
Definition of_int (i : Z) : string := pretty i.

(** A continuation byte of a UTF-8 sequence, [10xxxxxx]. *)
Definition continuation (c : ascii) : bool := between 0x80 0xBF c.

Fixpoint continuation_prefix (s : string) : string :=
  match s with
  | String c r => if continuation c then String c (continuation_prefix r)
                  else EmptyString
  | EmptyString => EmptyString
  end.

(** [s[0]] of a non-empty string: its first code point. *)
Definition first_char (a : ascii) (r : string) : string :=
  String a (continuation_prefix r).

End PyStr.

(** [x or d] where [x] is [None] or a [str]. *)
Definition py_or (x : option string) (d : string) : string :=
  match x with
  | Some (String a r) => String a r
  | Some EmptyString | None => d
  end.

(** Truth value of [None] or a [str]. *)
Definition truthy (x : option string) : bool :=
  match x with
  | Some (String _ _) => true
  | Some EmptyString | None => false
  end.

(** ** Python values and exceptions *)

(** What [json.loads] builds.  A number keeps its literal: the script never
    computes with one.  A dict is the list of its items, keys distinct. *)
Inductive pyval : Type :=
| PNone
| PBool (b : bool)
| PNum (literal : string)
| PStr (s : string)
| PList (items : list pyval)
| PDict (items : list (string * pyval)).

(** A subscript: a [str] key or an [int] index. *)
Inductive index : Type :=
| IStr (k : string)
| IInt (i : Z).

(** The subclasses of [Exception] that the script's own operations raise,
    and [LibraryError] for whatever is raised inside pdfplumber, requests,
    json or openai. *)
Inductive exn : Type :=
| KeyError (key : index)
| IndexError
| TypeError
| AttributeError (attribute : string)
| LibraryError (message : string).

Fixpoint assoc (k : string) (d : list (string * pyval)) : option pyval :=
  match d with
  | [] => None
  | (k', v) :: d' => if String.eqb k k' then Some v else assoc k d'
  end.

(** [v[k]] for a string literal [k]. *)
Definition getitem_str (v : pyval) (k : string) : exn + pyval :=
  match v with
  | PDict d =>
      match assoc k d with
      | Some x => inr x
      | None => inl (KeyError (IStr k))
      end
  | _ => inl TypeError
  end.

(** [v[0]] *)
Definition getitem_0 (v : pyval) : exn + pyval :=
  match v with
  | PList (x :: _) => inr x
  | PList [] => inl IndexError
  | PStr (String a r) => inr (PStr (PyStr.first_char a r))
  | PStr EmptyString => inl IndexError
  | PDict _ => inl (KeyError (IInt 0))
  | _ => inl TypeError
  end.

(** ** The external libraries and the network *)

(** [requests.post(url, data={...}, timeout=...)] *)
Record post_request : Type := {
  url : string;
  data_auth_key : option string;
  data_text : option string;
  data_target_lang : string;
  timeout : Z
}.

(** The attributes of a [requests.Response] that the script reads;
    [json] is the result of the method call [resp.json()]. *)
Record response : Type := {
  status_code : Z;
  text : string;
  json : exn + pyval
}.

(** [client.chat.completions.create(model=..., messages=[...])]; a message
    is the pair of its role and its content.  A content, like the [text] of
    a POST, may come from the session state, whose values are [None] or a
    [str]. *)
Record chat_request : Type := {
  model : string;
  messages : list (string * option string)
}.

(** [c.message.content] of a choice [c]: [None] or a [str]. *)
Record choice : Type := { message_content : option string }.

Record completion : Type := { choices : list choice }.

(** Everything outside the script: whether the two optional imports at the
    top of the file succeeded, what pdfplumber makes of a byte string, what
    the two translation services answer, and how the interpreter prints an
    exception ([str(ex)], in an f-string [{ex}]). *)
Record World : Type := {
  page : Type;
  _PDFPLUMBER_AVAILABLE : bool;
  _PDFPLUMBER_ERR : string;
  _OPENAI_AVAILABLE : bool;
  pdfplumber_open : list Byte.byte -> exn + list page;
  extract_text : page -> exn + option string;
  requests_post : post_request -> exn + response;
  chat_completions_create : string -> chat_request -> exn + completion;
  str_exn : exn -> string
}.

(** ** What a run of the script does, in order *)

(** Calls to Streamlit, with the argument that matters. *)
Inductive element : Type :=
| Title (body : string)
| Caption (body : string)
| Subheader (body : string)
| Success (body : string)
| Info (body : string)
| Warning (body : string)
| Error (body : string)
| Markdown (body : pyval)
| Spinner (body : string)
| TextInput (label : string)
| TextArea (label : string)
| Button (label : string)
| Radio (label : string) (options : list string)
| Selectbox (label : string) (options : list string)
| FileUploader (label : string).

(** Outbound calls. *)
Inductive net_call : Type :=
| HttpPost (r : post_request)
| ChatCreate (api_key : string) (r : chat_request).

Inductive event : Type :=
| UI (e : element)
| Net (c : net_call).

Definition network_calls (evs : list event) : list net_call :=
  omap (fun ev => match ev with Net c => Some c | UI _ => None end) evs.

(** [st.session_state]: each key holds [None] or a [str]. *)
Abbreviation session := (gmap string (option string)).

(** ** The script monad *)

(** How a piece of the script ends: with a value, with an exception that is
    an [Exception], or with the control-flow exception of [st.rerun()], which
    is not an [Exception] and which no handler of the script catches. *)
Inductive outcome (A : Type) : Type :=
| Val (a : A)
| Exc (e : exn)
| Rerun.
Arguments Val {A} a.
Arguments Exc {A} e.
Arguments Rerun {A}.

Definition script (A : Type) : Type :=
  session -> outcome A * session * list event.

Definition script_ret {A} (a : A) : script A := fun s => (Val a, s, []).

Definition script_bind {A B} (f : A -> script B) (m : script A) : script B :=
  fun s =>
    match m s with
    | (Val a, s1, ev1) =>
        match f a s1 with
        | (o, s2, ev2) => (o, s2, ev1 ++ ev2)
        end
    | (Exc e, s1, ev1) => (Exc e, s1, ev1)
    | (Rerun, s1, ev1) => (Rerun, s1, ev1)
    end.

#[global] Instance script_mret : MRet script := @script_ret.
#[global] Instance script_mbind : MBind script := @script_bind.

Definition raise {A} (e : exn) : script A := fun s => (Exc e, s, []).

Definition st_rerun {A} : script A := fun s => (Rerun, s, []).

Definition emit (ev : event) : script unit := fun s => (Val tt, s, [ev]).

(** A pure operation that may raise. *)
Definition lift {A} (r : exn + A) : script A :=
  match r with
  | inl e => raise e
  | inr a => mret a
  end.

(** [try: body  except Exception as ex: handler ex] *)
Definition try_except {A} (body : script A) (handler : exn -> script A)
  : script A :=
  fun s =>
    match body s with
    | (Exc e, s1, ev1) =>
        match handler e s1 with
        | (o, s2, ev2) => (o, s2, ev1 ++ ev2)
        end
    | r => r
    end.

(** [if c: body] for a statement [body]. *)
Definition when (c : bool) (body : script unit) : script unit :=
  if c then body else mret tt.

(** *** Session state *)

(** [st.session_state.setdefault(k, v)] *)
Definition setdefault (k : string) (v : option string) : script unit :=
  fun s =>
    match s !! k with
    | Some _ => (Val tt, s, [])
    | None => (Val tt, <[k := v]> s, [])
    end.

(** [st.session_state.K], an attribute read *)
Definition getattr (k : string) : script (option string) :=
  fun s =>
    match s !! k with
    | Some v => (Val v, s, [])
    | None => (Exc (AttributeError k), s, [])
    end.

(** [st.session_state[k]] *)
Definition getitem (k : string) : script (option string) :=
  fun s =>
    match s !! k with
    | Some v => (Val v, s, [])
    | None => (Exc (KeyError (IStr k)), s, [])
    end.

(** [st.session_state.get(k)] *)
Definition get (k : string) : script (option string) :=
  fun s => (Val (default None (s !! k)), s, []).

(** [st.session_state.K = v] and [st.session_state[k] = v] *)
Definition assign (k : string) (v : option string) : script unit :=
  fun s => (Val tt, <[k := v]> s, []).

(** *** Streamlit output *)

Definition st (e : element) : script unit := emit (UI e).

(** ** The script *)

(** *** The patch of [charset_normalizer.utils] (lines 17-30) *)

(** An attribute of the module: a function from a code point to a [bool],
    such as [is_cjk_uncommon], or some other object, named. *)
Inductive attribute : Type :=
| CodePointTest (f : Z -> bool)
| Object (name : string).

(** [_dummy_is_cjk_uncommon] *)
Definition _dummy_is_cjk_uncommon (cp : Z) : bool := false.

(** The [try] block, given what [import charset_normalizer.utils] does:
    it raises, or gives the module, by its attributes.  The result is the
    module after the block, [None] when the import failed and the handler
    passed. *)
Definition patch_charset_normalizer (imported : exn + gmap string attribute)
  : option (gmap string attribute) :=
  match imported with
  | inl _ => None
  | inr _cnu =>
      if bool_decide (is_Some (_cnu !! "is_cjk_uncommon")) then Some _cnu
      else Some (<["is_cjk_uncommon" := CodePointTest _dummy_is_cjk_uncommon]>
                   _cnu)
  end.

(** *** Module-level tables (lines 50-59) *)

(** The items of the dict literal, in the order they are written. *)
Definition DEEPL_SUPPORTED_LANGS : list (string * string) :=
  [ ("BG", "Bulgarian"); ("CS", "Czech"); ("DA", "Danish"); ("DE", "German");
    ("EL", "Greek"); ("EN", "English"); ("ES", "Spanish"); ("ET", "Estonian");
    ("FI", "Finnish"); ("FR", "French"); ("HU", "Hungarian");
    ("ID", "Indonesian"); ("IT", "Italian"); ("JA", "Japanese");
    ("KO", "Korean"); ("LT", "Lithuanian"); ("LV", "Latvian");
    ("NB", "Norwegian (Bokmål)"); ("NL", "Dutch"); ("PL", "Polish");
    ("PT", "Portuguese"); ("RO", "Romanian"); ("RU", "Russian");
    ("SK", "Slovak"); ("SL", "Slovenian"); ("SV", "Swedish");
    ("TR", "Turkish"); ("UK", "Ukrainian"); ("ZH", "Chinese") ].

(** [{v: k for k, v in DEEPL_SUPPORTED_LANGS.items()}]: a later item
    overwrites an earlier one with the same name. *)
Definition LANG_NAME_TO_CODE : gmap string string :=
  foldl (fun m kv => <[kv.2 := kv.1]> m) ∅ DEEPL_SUPPORTED_LANGS.

(** [LANG_NAME_TO_CODE[name]] *)
Definition lang_code (name : string) : exn + string :=
  match LANG_NAME_TO_CODE !! name with
  | Some c => inr c
  | None => inl (KeyError (IStr name))
  end.

(** [["English"] + sorted(LANG_NAME_TO_CODE.keys())] (line 180) *)
Definition langs : list string :=
  "English" :: merge_sort String.le (elements (dom LANG_NAME_TO_CODE)).

(** *** Widget values

    What each widget returns in this run, were it rendered.  [st.radio]
    returns one of its two options and [st.selectbox] one of [langs];
    [uploaded_pdf] is [None] or the uploaded file, given by what its [read()]
    returns. *)
Record inputs : Type := {
  okey : string;
  reset_openai_key : bool;
  dkey : string;
  reset_deepl_key : bool;
  translation_provider : string;
  uploaded_pdf : option (list Byte.byte);
  user_prompt : string;
  analyze_button : bool;
  target : string;
  translate_button : bool
}.

Definition nonempty (x : string) : bool := truthy (Some x).

Section Script.

Variable W : World.

(** *** Sidebar (lines 73-108) *)

Definition sidebar_openai (inp : inputs) : script unit :=
  key ← getattr "OPENAI_API_KEY";
  if negb (truthy key) then
    st (TextInput "OpenAI Key (o3-mini)");;
    when (nonempty (okey inp))
      (assign "OPENAI_API_KEY" (Some (PyStr.strip (okey inp)));;
       st (Success "OpenAI key saved — reloading.");;
       st_rerun)
  else
    st (Success "OpenAI key ✓");;
    st (Button "Reset OpenAI Key");;
    when (reset_openai_key inp)
      (assign "OPENAI_API_KEY" None;;
       st_rerun).

Definition sidebar_deepl (inp : inputs) : script unit :=
  key ← getattr "DEEPL_API_KEY";
  if negb (truthy key) then
    st (TextInput "DeepL API Key");;
    when (nonempty (dkey inp))
      (assign "DEEPL_API_KEY" (Some (PyStr.strip (dkey inp)));;
       st (Success "DeepL key saved."))
  else
    st (Success "DeepL key ✓");;
    st (Button "Reset DeepL Key");;
    when (reset_deepl_key inp)
      (assign "DEEPL_API_KEY" None;;
       st_rerun).

Definition sidebar (inp : inputs) : script unit :=
  st (Title "🔑 Configuration");;
  sidebar_openai inp;;
  sidebar_deepl inp;;
  st (Radio "Translation provider" ["o3-mini"; "DeepL"]);;
  st (Info "PDF → Markdown → Translate");;
  st (Warning "AI output may contain errors. Verify critical data.").

(** *** [openai_client] (lines 111-114)

    The client is [None] or an [OpenAI] object, given by the key it was
    built with.  The constructor [OpenAI(api_key=...)] is taken to return:
    given a non-empty key it builds the object without any request.  The
    script does not guard that call, nor an exception other than
    [ImportError] at the import of line 43, and this embedding says nothing
    about a run in which one of them raises. *)
Definition openai_client : script (option string) :=
  if _OPENAI_AVAILABLE W then
    key ← getattr "OPENAI_API_KEY";
    mret (if truthy key then key else None)
  else mret None.

(** *** [pdf_to_markdown] (lines 117-137) *)

(** The loop [for i, p in enumerate(pdf.pages, 1)], from page number [i]
    on, with [pages_md] as built so far. *)
Fixpoint extract_pages (i : Z) (pages : list (page W))
    (pages_md : list string) : exn + list string :=
  match pages with
  | [] => inr pages_md
  | p :: rest =>
      match extract_text W p with
      | inl ex => inl ex
      | inr extracted =>
          let text := py_or extracted "" in
          let page_md :=
            "## Page " +:+ PyStr.of_int i +:+ nl +:+ nl +:+ PyStr.strip text in
          extract_pages (i + 1) rest (pages_md ++ [page_md])
      end
  end.

Definition pdf_to_markdown (pdf_bytes : list Byte.byte) : script string :=
  if negb (_PDFPLUMBER_AVAILABLE W) then
    st (Error ("pdfplumber import failed." +:+ nl +:+ nl
               +:+ "```python" +:+ nl +:+ _PDFPLUMBER_ERR W +:+ nl +:+ "```"));;
    mret ""
  else
    try_except
      (pages ← lift (pdfplumber_open W pdf_bytes);
       pages_md ← lift (extract_pages 1 pages []);
       mret (PyStr.join (nl +:+ nl) pages_md))
      (fun ex =>
         st (Error ("PDF parsing failed:" +:+ nl +:+ nl
                    +:+ "```" +:+ nl +:+ str_exn W ex +:+ nl +:+ "```"));;
         mret "").

(** *** Conversion (lines 158-170) *)

Definition convert (inp : inputs) : script unit :=
  when (analyze_button inp)
    match uploaded_pdf inp with
    | None => st (Warning "Please upload a PDF first.")
    | Some pdf_bytes =>
        st (Subheader "📄 PDF → Markdown");;
        analysis_result ← pdf_to_markdown pdf_bytes;
        st (Markdown (PStr "### Resulting Markdown"));;
        st (Markdown (PStr (py_or (Some analysis_result) "*No output*")));;
        assign "analysis_result" (Some analysis_result)
    end.

(** *** Translation (lines 174-231) *)

(** [requests.post(...)]: the call goes out, then raises or returns. *)
Definition post (r : post_request) : script response :=
  emit (Net (HttpPost r));;
  lift (requests_post W r).

(** [client.chat.completions.create(...)]: reading [.chat] of [None]
    raises before anything is sent. *)
Definition create (client : option string) (r : chat_request)
  : script completion :=
  match client with
  | None => raise (AttributeError "chat")
  | Some api_key =>
      emit (Net (ChatCreate api_key r));;
      lift (chat_completions_create W api_key r)
  end.

(** [choices[0]] *)
Definition first_choice (cs : list choice) : exn + choice :=
  match cs with
  | c :: _ => inr c
  | [] => inl IndexError
  end.

(** [content.strip()] *)
Definition content_strip (content : option string) : exn + string :=
  match content with
  | Some c => inr (PyStr.strip c)
  | None => inl (AttributeError "strip")
  end.

(** Lines 195-212 *)
Definition translate_deepl (target : string) (src_md : option string)
  : script unit :=
  try_except
    (auth_key ← getattr "DEEPL_API_KEY";
     target_lang ← lift (lang_code target);
     resp ← post {| url := "https://api-free.deepl.com/v2/translate";
                    data_auth_key := auth_key;
                    data_text := src_md;
                    data_target_lang := target_lang;
                    timeout := 30 |};
     if status_code resp =? 200 then
       body ← lift (json resp);
       translations ← lift (getitem_str body "translations");
       first ← lift (getitem_0 translations);
       trans ← lift (getitem_str first "text");
       st (Markdown (PStr ("## 🌐 Translated (" +:+ target +:+ ")")));;
       st (Markdown trans)
     else
       st (Error ("DeepL error " +:+ PyStr.of_int (status_code resp)
                  +:+ ": " +:+ text resp)))
    (fun ex =>
       st (Error ("DeepL request failed:" +:+ nl +:+ nl
                  +:+ "```" +:+ nl +:+ str_exn W ex +:+ nl +:+ "```"))).

Definition system_msg (target : string) : string :=
  "Translate the following Markdown into " +:+ target +:+ ", "
  +:+ "preserving all headings and formatting. "
  +:+ "Respond ONLY with the translation.".

(** Lines 214-231 *)
Definition translate_o3mini (client : option string) (target : string)
    (src_md : option string) : script unit :=
  try_except
    (comp ← create client
              {| model := "o3-mini";
                 messages := [ ("system", Some (system_msg target));
                               ("user", src_md) ] |};
     c ← lift (first_choice (choices comp));
     trans ← lift (content_strip (message_content c));
     st (Markdown (PStr ("## 🌐 Translated (" +:+ target +:+ ")")));;
     st (Markdown (PStr trans)))
    (fun ex =>
       st (Error ("o3-mini translation error:" +:+ nl +:+ nl
                  +:+ "```" +:+ nl +:+ str_exn W ex +:+ nl +:+ "```"))).

(** Lines 192-231: the body of [if st.button("Translate Markdown")] *)
Definition translate (provider : string) (client : option string)
    (target : string) : script unit :=
  src_md ← getitem "analysis_result";
  st (Spinner ("Translating via " +:+ provider +:+ " …"));;
  if String.eqb provider "DeepL" then translate_deepl target src_md
  else translate_o3mini client target src_md.

(** Lines 186-189: the two credential warnings *)
Definition credential_warnings (provider : string) (client : option string)
  : script unit :=
  when (String.eqb provider "o3-mini" && bool_decide (client = None))
    (st (Warning "Add OpenAI key to use o3-mini translation."));;
  (if String.eqb provider "DeepL" then
     key ← getattr "DEEPL_API_KEY";
     when (negb (truthy key)) (st (Warning "Add DeepL key for translation."))
   else mret tt).

Definition translation_section (inp : inputs) (client : option string)
  : script unit :=
  st (Subheader "🌐 Translate Markdown");;
  analysis_result ← get "analysis_result";
  if negb (truthy analysis_result) then
    st (Info "Run analysis/conversion first.")
  else
    st (Selectbox "Target language:" langs);;
    if String.eqb (target inp) "English" then
      st (Info "Already in English — no translation needed.")
    else
      credential_warnings (translation_provider inp) client;;
      st (Button "Translate Markdown");;
      when (translate_button inp)
        (translate (translation_provider inp) client (target inp)).

(** *** One run of the script, top to bottom

    [st.set_page_config] and the two [st.container()] calls only decide
    where elements appear on the page; they are left out, and the trace is
    in the order of the calls. *)

Definition main (inp : inputs) : script unit :=
  setdefault "OPENAI_API_KEY" None;;
  setdefault "DEEPL_API_KEY" None;;
  sidebar inp;;
  client ← openai_client;
  st (Title "📄 PDF → Markdown → Translate");;
  st (Caption "Structured Markdown extraction with optional translation");;
  st (Subheader "Upload a PDF");;
  st (FileUploader "📤 PDF (multi-page)");;
  st (TextArea "✍️ Optional user prompt:");;
  st (Button "🔍 Convert to Markdown");;
  convert inp;;
  st (Markdown (PStr "---"));;
  translation_section inp client.

End Script.

(** * Vocabulary of the properties *)

(** ** Text *)

(** U+00A0 (bytes C2 A0) and U+3000 (bytes E3 80 80) are white space. *)
Definition nbsp : string :=
  String (ascii_of_nat 194) (String (ascii_of_nat 160) EmptyString).

Definition ideographic_space : string :=
  String (ascii_of_nat 227)
    (String (ascii_of_nat 128) (String (ascii_of_nat 128) EmptyString)).

(** ** Reading text back

    What the properties say about a text of the program is said with the
    definitions below, which do not use the functions of [PyStr]. *)

(** *** Decimal numbers *)

Definition digit (c : ascii) : option N :=
  let n := N_of_ascii c in
  if ((48 <=? n) && (n <=? 57))%N then Some (n - 48)%N else None.

Fixpoint read_digits (s : string) (acc : N) : option N :=
  match s with
  | EmptyString => Some acc
  | String c r =>
      match digit c with
      | Some d => read_digits r (10 * acc + d)%N
      | None => None
      end
  end.

(** The number that [s] is the decimal numeral of: one digit at least, and
    no leading zero. *)
Definition read_nat (s : string) : option N :=
  match s with
  | EmptyString => None
  | String c r =>
      match r with
      | EmptyString => read_digits s 0
      | String _ _ =>
          if bool_decide (digit c = Some 0%N) then None else read_digits s 0
      end
  end.

(** The same for an integer: a negative number has a minus sign in front
    of the numeral of a positive number. *)
Definition read_int (s : string) : option Z :=
  match s with
  | EmptyString => None
  | String c r =>
      if bool_decide (c = "-"%char) then
        match read_nat r with
        | Some (Npos p) => Some (Zneg p)
        | Some N0 | None => None
        end
      else Z.of_N <$> read_nat s
  end.

(** *** White space *)

(** The code points for which Python's [str.isspace] holds. *)
Definition whitespace_code_points : list N :=
  [ 0x09; 0x0A; 0x0B; 0x0C; 0x0D; 0x1C; 0x1D; 0x1E; 0x1F; 0x20;
    0x85; 0xA0; 0x1680;
    0x2000; 0x2001; 0x2002; 0x2003; 0x2004; 0x2005; 0x2006; 0x2007;
    0x2008; 0x2009; 0x200A;
    0x2028; 0x2029; 0x202F; 0x205F; 0x3000 ]%N.

(** The UTF-8 encoding of a code point. *)
Definition utf8 (cp : N) : list ascii :=
  (if cp <? 0x80 then [ascii_of_N cp]
   else if cp <? 0x800 then
     [ascii_of_N (0xC0 + cp / 64); ascii_of_N (0x80 + cp mod 64)]
   else if cp <? 0x10000 then
     [ascii_of_N (0xE0 + cp / 4096); ascii_of_N (0x80 + (cp / 64) mod 64);
      ascii_of_N (0x80 + cp mod 64)]
   else
     [ascii_of_N (0xF0 + cp / 262144);
      ascii_of_N (0x80 + (cp / 4096) mod 64);
      ascii_of_N (0x80 + (cp / 64) mod 64);
      ascii_of_N (0x80 + cp mod 64)])%N.

(** The byte sequences of the white space code points. *)
Definition space_words : list (list ascii) := utf8 <$> whitespace_code_points.

(** A run of white space. *)
Definition blank (l : list ascii) : Prop :=
  exists ws : list (list ascii),
    Forall (fun w => w ∈ space_words) ws /\ l = concat ws.

(** [body] is [t] without the white space at its two ends: [t] is [body]
    between two runs of white space, and [body] neither begins nor ends
    with a white space code point. *)
Definition trimmed (t body : string) : Prop :=
  exists pre post : list ascii,
    list_ascii_of_string t = pre ++ list_ascii_of_string body ++ post
    /\ blank pre /\ blank post
    /\ (forall w, w ∈ space_words -> ~ w `prefix_of` list_ascii_of_string body)
    /\ (forall w, w ∈ space_words -> ~ w `suffix_of` list_ascii_of_string body).

(** The scan of [str.strip] sees white space at the head of [l]: in its
    first byte, its first two or its first three. *)
Definition seen_at_head (l : list ascii) : Prop :=
  match l with
  | [] => False
  | a :: r =>
      PyStr.space1 a = true
      \/ match r with
         | [] => False
         | b :: r' =>
             PyStr.space2 a b = true
             \/ match r' with
                | [] => False
                | c :: _ => PyStr.space3 a b c = true
                end
         end
  end.

(** The same for the scan of the reversed text, whose head is the end of
    the text, last byte first. *)
Definition seen_at_end (l : list ascii) : Prop :=
  match l with
  | [] => False
  | z :: r =>
      PyStr.space1 z = true
      \/ match r with
         | [] => False
         | y :: r' =>
             PyStr.space2 y z = true
             \/ match r' with
                | [] => False
                | x :: _ => PyStr.space3 x y z = true
                end
         end
  end.

(** *** Blocks separated by a blank line *)

Fixpoint document (blocks : list string) : string :=
  match blocks with
  | [] => ""
  | [b] => b
  | b :: rest => b +:+ nl +:+ nl +:+ document rest
  end.

(** *** Entries of a JSON value *)

(** [x] is the value of key [k] in the dict [v]. *)
Definition has_entry (v : pyval) (k : string) (x : pyval) : Prop :=
  exists before after : list (string * pyval),
    v = PDict (before ++ (k, x) :: after) /\ k ∉ before.*1.

(** [x] is the first item of the list [v]. *)
Definition has_first (v : pyval) (x : pyval) : Prop :=
  exists rest : list pyval, v = PList (x :: rest).

(** ** Blocks *)

(** The block of page [n], whose extracted text is [extracted]
    ([None] or empty when the page has no extractable text):
    ["## Page {n}\n\n{trimmed text}"]. *)
Definition page_block (n : Z) (extracted : option string) : string :=
  "## Page " +:+ PyStr.of_int n +:+ nl +:+ nl
  +:+ PyStr.strip (default "" extracted).

(** One block per page, the page at position [k] (from 0) numbered [k + 1]. *)
Definition page_blocks (texts : list (option string)) : list string :=
  imap (fun k t => page_block (Z.of_nat k + 1) t) texts.

(** ** Messages and requests *)

Section Messages.

Variable W : World.

Definition import_failed_msg : string :=
  "pdfplumber import failed." +:+ nl +:+ nl
  +:+ "```python" +:+ nl +:+ _PDFPLUMBER_ERR W +:+ nl +:+ "```".

Definition parsing_failed_msg (ex : exn) : string :=
  "PDF parsing failed:" +:+ nl +:+ nl
  +:+ "```" +:+ nl +:+ str_exn W ex +:+ nl +:+ "```".

Definition translated_header (target : string) : pyval :=
  PStr ("## 🌐 Translated (" +:+ target +:+ ")").

Definition deepl_request_failed_msg (ex : exn) : string :=
  "DeepL request failed:" +:+ nl +:+ nl
  +:+ "```" +:+ nl +:+ str_exn W ex +:+ nl +:+ "```".

Definition deepl_error_msg (status : Z) (body : string) : string :=
  "DeepL error " +:+ PyStr.of_int status +:+ ": " +:+ body.

Definition o3mini_error_msg (ex : exn) : string :=
  "o3-mini translation error:" +:+ nl +:+ nl
  +:+ "```" +:+ nl +:+ str_exn W ex +:+ nl +:+ "```".

(** The POST that [translate_deepl] sends for a supported target. *)
Definition deepl_request (auth_key src_md : option string) (code : string)
  : post_request :=
  {| url := "https://api-free.deepl.com/v2/translate";
     data_auth_key := auth_key;
     data_text := src_md;
     data_target_lang := code;
     timeout := 30 |}.

(** The chat request that [translate_o3mini] sends. *)
Definition o3mini_request (target : string) (src_md : option string)
  : chat_request :=
  {| model := "o3-mini";
     messages :=
       [ ("system",
          Some ("Translate the following Markdown into " +:+ target
                +:+ ", preserving all headings and formatting. "
                +:+ "Respond ONLY with the translation."));
         ("user", src_md) ] |}.

End Messages.

(** ** What a piece of script leaves alone *)

(** [respects R m]: from any session [s], the session that [m] leaves is
    related to [s] by [R], however [m] ends. *)
Definition respects (R : relation session) {A} (m : script A) : Prop :=
  forall s : session, R s (m s).1.2.

(** The session is left as it was. *)
Definition keeps_session {A} (m : script A) : Prop := respects eq m.

(** The entry of key [k] is left as it was. *)
Definition same_at (k : string) : relation session :=
  fun s s' => s' !! k = s !! k.

(** ** A world to run the script in *)

(** pdfplumber rejects the empty byte
    string, opens [00] as a PDF without pages, [01] as a PDF whose second
    page cannot be extracted, and anything else as two pages, the second
    without text.  DeepL refuses a request without key, is unreachable with
    the key ["offline"], and otherwise translates to ["Bonjour"].  The chat
    service refuses the key ["sk-invalid"] and otherwise answers
    [" Bonjour\n"]. *)

Definition quote : string := String (ascii_of_nat 34) EmptyString.

Definition demo_str_exn (ex : exn) : string :=
  match ex with
  | KeyError (IStr k) => "'" +:+ k +:+ "'"
  | KeyError (IInt i) => PyStr.of_int i
  | IndexError => "list index out of range"
  | TypeError => "object is not subscriptable"
  | AttributeError a => "'NoneType' object has no attribute '" +:+ a +:+ "'"
  | LibraryError m => m
  end.

Definition demo_open (pdf_bytes : list Byte.byte)
  : exn + list (exn + option string) :=
  match pdf_bytes with
  | [] => inl (LibraryError "No /Root object! - Is this really a PDF?")
  | [Byte.x00] => inr []
  | [Byte.x01] => inr [inr (Some "Hello"); inl (LibraryError "Unexpected EOF")]
  | _ => inr [inr (Some (" Hello" +:+ nl)); inr None]
  end.

Definition bonjour : response :=
  {| status_code := 200;
     text := "{" +:+ quote +:+ "translations" +:+ quote +:+ ":[{" +:+ quote
             +:+ "text" +:+ quote +:+ ":" +:+ quote +:+ "Bonjour" +:+ quote
             +:+ "}]}";
     json := inr (PDict [("translations",
                          PList [PDict [("text", PStr "Bonjour")]])]) |}.

Definition forbidden : response :=
  {| status_code := 403;
     text := "Forbidden";
     json := inl (LibraryError "Expecting value: line 1 column 1 (char 0)") |}.

Definition demo_post (r : post_request) : exn + response :=
  match data_auth_key r with
  | None => inr forbidden
  | Some key =>
      if String.eqb key "offline" then inl (LibraryError "Connection timed out")
      else inr bonjour
  end.

Definition demo_chat (api_key : string) (r : chat_request)
  : exn + completion :=
  if String.eqb api_key "sk-invalid"
  then inl (LibraryError "Incorrect API key provided")
  else inr {| choices := [ {| message_content := Some (" Bonjour" +:+ nl) |} ] |}.

Definition demo (pdfplumber_imported : bool) : World :=
  {| page := exn + option string;
     _PDFPLUMBER_AVAILABLE := pdfplumber_imported;
     _PDFPLUMBER_ERR :=
       if pdfplumber_imported then ""
       else "ModuleNotFoundError(No module named 'pdfplumber')";
     _OPENAI_AVAILABLE := true;
     pdfplumber_open := demo_open;
     extract_text := fun p => p;
     requests_post := demo_post;
     chat_completions_create := demo_chat;
     str_exn := demo_str_exn |}.

Definition demo_world : World := demo true.

(** A session that holds a converted document and no key. *)
Definition hello_md : string := "## Page 1" +:+ nl +:+ nl +:+ "Hello".

Definition converted : session :=
  <["analysis_result" := Some hello_md]>
    (<["DEEPL_API_KEY" := None]> (<["OPENAI_API_KEY" := None]> ∅)).

(** The same with a DeepL key. *)
Definition converted_with_key (key : string) : session :=
  <["DEEPL_API_KEY" := Some key]> converted.

(** Widget values: nothing typed, nothing pressed but what is said. *)
Definition widgets (provider : string) (file : option (list Byte.byte))
    (analyze : bool) (target : string) (translate : bool) : inputs :=
  {| okey := ""; reset_openai_key := false;
     dkey := ""; reset_deepl_key := false;
     translation_provider := provider;
     uploaded_pdf := file;
     user_prompt := "";
     analyze_button := analyze;
     target := target;
     translate_button := translate |}.

(** ** Runs of the whole script *)

(** The session after lines 69-70: an entry that is missing is set to
    [None]. *)
Definition set_default (k : string) (v : option string) (s : session)
  : session :=
  match s !! k with
  | Some _ => s
  | None => <[k := v]> s
  end.

Definition init (s : session) : session :=
  set_default "DEEPL_API_KEY" None (set_default "OPENAI_API_KEY" None s).

(** Both key entries exist. *)
Definition has_keys (s : session) : Prop :=
  is_Some (s !! "OPENAI_API_KEY") /\ is_Some (s !! "DEEPL_API_KEY").

(** What line 111-114 makes of a session that has the key entry. *)
Definition client_of (W : World) (s : session) : option string :=
  if _OPENAI_AVAILABLE W then
    let key := default None (s !! "OPENAI_API_KEY") in
    if truthy key then key else None
  else None.

(** The script after lines 69-70. *)
Definition after_init (W : World) (inp : inputs) : script unit :=
  sidebar inp;;
  client ← openai_client W;
  st (Title "📄 PDF → Markdown → Translate");;
  st (Caption "Structured Markdown extraction with optional translation");;
  st (Subheader "Upload a PDF");;
  st (FileUploader "📤 PDF (multi-page)");;
  st (TextArea "✍️ Optional user prompt:");;
  st (Button "🔍 Convert to Markdown");;
  convert W inp;;
  st (Markdown (PStr "---"));;
  translation_section W inp client.

(** What a run shows before the translation section, when the sidebar is
    through: the events [sidebar] of the sidebar and [conversion] of the
    conversion, around the fixed elements. *)
Definition before_translation (sidebar conversion : list event) : list event :=
  sidebar
  ++ [UI (Title "📄 PDF → Markdown → Translate");
      UI (Caption "Structured Markdown extraction with optional translation");
      UI (Subheader "Upload a PDF");
      UI (FileUploader "📤 PDF (multi-page)");
      UI (TextArea "✍️ Optional user prompt:");
      UI (Button "🔍 Convert to Markdown")]
  ++ conversion
  ++ [UI (Markdown (PStr "---"))].

(** The elements shown, in order. *)
Definition shown (evs : list event) : list element :=
  omap (fun ev => match ev with UI e => Some e | Net _ => None end) evs.

(** [m] makes no outbound call. *)
Definition silent {A} (m : script A) : Prop :=
  forall s : session, network_calls (m s).2 = [].

(** From a session with both key entries, [m] leaves one, and does not end
    with an exception. *)
Definition safe {A} (m : script A) : Prop :=
  forall s : session,
    has_keys s -> has_keys (m s).1.2 /\ forall ex, (m s).1.1 <> Exc ex.

(** No entry is removed. *)
Definition grows : relation session := fun s s' => dom s ⊆ dom s'.

(** The call that the translation section may make from session [s]: on the
    DeepL path the POST with the stored key, the stored Markdown and the code
    of the target; on the other path the chat request of the client, with
    the target name and the stored Markdown. *)
Definition expected_call (inp : inputs) (client : option string) (s : session)
    (c : net_call) : Prop :=
  match c with
  | HttpPost r =>
      translation_provider inp = "DeepL"
      /\ exists (key : option string) (code : string),
          s !! "DEEPL_API_KEY" = Some key
          /\ LANG_NAME_TO_CODE !! target inp = Some code
          /\ r = deepl_request key (default None (s !! "analysis_result")) code
  | ChatCreate api_key r =>
      translation_provider inp <> "DeepL"
      /\ client = Some api_key
      /\ r = o3mini_request (target inp) (default None (s !! "analysis_result"))
  end.

(** [{v: k for k, v in items}] for any list of items (line 59 takes the items
    of [DEEPL_SUPPORTED_LANGS]). *)
Definition invert (items : list (string * string)) : gmap string string :=
  foldl (fun m kv => <[kv.2 := kv.1]> m) ∅ items.

(** The same widget values with the two key fields and the OpenAI reset
    button as given. *)
Definition with_keys (okey dkey : string) (reset : bool) (inp : inputs)
  : inputs :=
  {| okey := okey; reset_openai_key := reset;
     dkey := dkey; reset_deepl_key := reset_deepl_key inp;
     translation_provider := translation_provider inp;
     uploaded_pdf := uploaded_pdf inp;
     user_prompt := user_prompt inp;
     analyze_button := analyze_button inp;
     target := target inp;
     translate_button := translate_button inp |}.

(** * Properties *)

(** Unfolds the operations of the script monad, so that a piece of script
    applied to a session state computes. *)
Ltac script_unfold :=
  cbv beta iota delta
    [mbind mret script_mbind script_mret script_bind script_ret
     try_except lift raise st_rerun st emit when
     setdefault getattr getitem get assign].

(** ** Text *)

Example strip_spaces :
  PyStr.strip ("  Hello " +:+ nl) = "Hello".
Proof. reflexivity. Qed.

Example strip_keeps_inner :
  PyStr.strip (nl +:+ "a  b" +:+ nl +:+ nl) = "a  b".
Proof. reflexivity. Qed.

Example strip_unicode :
  PyStr.strip (nbsp +:+ ideographic_space +:+ "Bokmål" +:+ nbsp +:+ nl)
  = "Bokmål".
Proof. vm_compute. reflexivity. Qed.

(** [à] is C3 A0: its last byte is that of U+00A0, and it stays. *)
Example strip_keeps_letters :
  PyStr.strip (" voilà") = "voilà".
Proof. vm_compute. reflexivity. Qed.

Lemma strip_empty : PyStr.strip "" = "".
Proof. reflexivity. Qed.

Lemma py_or_falsy (x : option string) (d : string) :
  truthy x = false -> py_or x d = d.
Proof. by destruct x as [[|??]|]. Qed.

(** *** Numbers read back *)

Lemma digit_pretty_N_char (d : N) :
  (d < 10)%N -> digit (pretty_N_char d) = Some d.
Proof.
  intros Hd.
  assert (d = 0 \/ d = 1 \/ d = 2 \/ d = 3 \/ d = 4 \/ d = 5 \/ d = 6
          \/ d = 7 \/ d = 8 \/ d = 9)%N as Hcases by lia.
  by repeat destruct Hcases as [->|Hcases]; [..|subst].
Qed.

Lemma read_digits_pretty_N_go (x : N) :
  forall s : string, read_digits (pretty_N_go x s) 0 = read_digits s x.
Proof.
  induction (N.lt_wf_0 x) as [x _ IH]. intros s.
  assert (x = 0 \/ 0 < x)%N as [->|Hx] by lia.
  - by rewrite pretty_N_go_0.
  - rewrite pretty_N_go_step by done.
    rewrite IH by (by apply N.div_lt). simpl.
    rewrite digit_pretty_N_char by (by apply N.mod_lt).
    f_equal. rewrite (N.div_mod x 10) at 3 by done. lia.
Qed.

(** The numeral of a positive number does not begin with a zero. *)
Lemma pretty_N_go_head (x : N) :
  (0 < x)%N ->
  forall s : string,
    exists (c : ascii) (r : string),
      pretty_N_go x s = String c r /\ digit c <> Some 0%N.
Proof.
  induction (N.lt_wf_0 x) as [x _ IH]. intros Hx s.
  rewrite pretty_N_go_step by done.
  destruct (N.eq_dec (x / 10)%N 0%N) as [Hsmall|Hbig%N.neq_0_lt_0].
  - rewrite Hsmall, pretty_N_go_0. do 2 eexists. split; [done|].
    assert (x < 10)%N as Hlt by (by apply N.div_small_iff in Hsmall).
    rewrite N.mod_small by done. rewrite digit_pretty_N_char by done.
    intros [= ->]. lia.
  - apply IH; [by apply N.div_lt|done].
Qed.

Lemma read_nat_pretty (x : N) : read_nat (pretty x) = Some x.
Proof.
  unfold pretty, pretty_N. case_decide as Hx; [by subst|].
  destruct (pretty_N_go_head x ltac:(lia) "") as (c & r & Heq & Hc).
  pose proof (read_digits_pretty_N_go x "") as Hread. rewrite Heq in *.
  unfold read_nat. destruct r; [done|].
  by rewrite bool_decide_eq_false_2.
Qed.

Lemma read_int_of_int (z : Z) : read_int (PyStr.of_int z) = Some z.
Proof.
  unfold PyStr.of_int, pretty, pretty_Z.
  destruct z as [|p|p].
  - done.
  - change (pretty p) with (pretty (Npos p)).
    pose proof (read_nat_pretty (Npos p)) as Hread.
    unfold pretty, pretty_N in *. case_decide; [done|].
    destruct (pretty_N_go_head (Npos p) ltac:(lia) "") as (c & r & Heq & Hc).
    rewrite Heq in *. unfold read_int.
    rewrite bool_decide_eq_false_2; [by rewrite Hread|].
    intros ->. unfold read_nat in Hread. by destruct r.
  - change (pretty p) with (pretty (Npos p)).
    change (read_int (String "-" (pretty (Npos p))) = Some (Z.neg p)).
    unfold read_int. rewrite bool_decide_eq_true_2 by done.
    by rewrite read_nat_pretty.
Qed.
(** *** White space stripped *)

Lemma blank_nil : blank [].
Proof. by exists []. Qed.

Lemma blank_cons (w l : list ascii) :
  w ∈ space_words -> blank l -> blank (w ++ l).
Proof.
  intros Hw (ws & Hws & ->). exists (w :: ws). split; [by constructor|done].
Qed.

Lemma blank_app (l1 l2 : list ascii) : blank l1 -> blank l2 -> blank (l1 ++ l2).
Proof.
  intros (ws1 & Hws1 & ->) (ws2 & Hws2 & ->). exists (ws1 ++ ws2).
  split; [by apply Forall_app|by rewrite concat_app].
Qed.

Lemma byte_true (n : N) (a : ascii) :
  PyStr.byte n a = true -> a = ascii_of_N n.
Proof.
  unfold PyStr.byte, PyStr.code. intros <-%N.eqb_eq.
  symmetry. apply ascii_N_embedding.
Qed.

(** What the scan takes off is a white space code point. *)
Lemma space1_word (a : ascii) : PyStr.space1 a = true -> [a] ∈ space_words.
Proof.
  destruct a as [[] [] [] [] [] [] [] []]; intros H; vm_compute in H;
    try discriminate; apply (bool_decide_unpack _); vm_compute; exact I.
Qed.

Lemma space2_word (a b : ascii) :
  PyStr.space2 a b = true -> [a; b] ∈ space_words.
Proof.
  unfold PyStr.space2.
  intros [->%byte_true [->%byte_true| ->%byte_true]%orb_true_iff]%andb_true_iff;
    apply (bool_decide_unpack _); vm_compute; exact I.
Qed.

Lemma general_punctuation_word (c : ascii) :
  PyStr.between 0x80 0x8A c = true ->
  [ascii_of_N 0xE2; ascii_of_N 0x80; c] ∈ space_words.
Proof.
  destruct c as [[] [] [] [] [] [] [] []]; intros H; vm_compute in H;
    try discriminate; apply (bool_decide_unpack _); vm_compute; exact I.
Qed.

Lemma space3_word (a b c : ascii) :
  PyStr.space3 a b c = true -> [a; b; c] ∈ space_words.
Proof.
  unfold PyStr.space3. rewrite !orb_true_iff, !andb_true_iff, !orb_true_iff.
  intros [[[[[->%byte_true ->%byte_true] ->%byte_true]
           |[[->%byte_true ->%byte_true]
             [[[Hc| ->%byte_true]| ->%byte_true]| ->%byte_true]]]
          |[[->%byte_true ->%byte_true] ->%byte_true]]
         |[[->%byte_true ->%byte_true] ->%byte_true]];
    try (by apply general_punctuation_word);
    apply (bool_decide_unpack _); vm_compute; exact I.
Qed.

(** A white space code point at the head of a text is seen by the scan. *)
Lemma space_word_head (w l : list ascii) :
  w ∈ space_words -> w `prefix_of` l -> seen_at_head l.
Proof.
  intros Hw [k ->].
  assert (Hall : Forall (fun w => forall k, seen_at_head (w ++ k)) space_words).
  { unfold space_words. apply Forall_fmap. unfold whitespace_code_points.
    repeat (apply List.Forall_cons; [intros k'; vm_compute; auto|]).
    apply List.Forall_nil. }
  rewrite Forall_forall in Hall. by apply Hall.
Qed.

(** The same at the end of a text, for the scan of the reversed text. *)
Lemma space_word_last (w l : list ascii) :
  w ∈ space_words -> rev w `prefix_of` l -> seen_at_end l.
Proof.
  intros Hw [k ->].
  assert (Hall : Forall (fun w => forall k, seen_at_end (rev w ++ k))
                   space_words).
  { unfold space_words. apply Forall_fmap. unfold whitespace_code_points.
    repeat (apply List.Forall_cons; [intros k'; vm_compute; auto|]).
    apply List.Forall_nil. }
  rewrite Forall_forall in Hall. by apply Hall.
Qed.

Lemma lstrip_bytes_spec (n : nat) :
  forall l : list ascii,
    (length l <= n)%nat ->
    exists pre : list ascii,
      blank pre
      /\ l = pre ++ PyStr.lstrip_bytes l
      /\ forall w, w ∈ space_words -> ~ w `prefix_of` PyStr.lstrip_bytes l.
Proof.
  induction n as [|n IH]; intros l Hlen.
  { destruct l; [|simpl in Hlen; lia]. exists []. split; [apply blank_nil|].
    split; [done|]. intros w Hw Hpre. by apply (space_word_head w []). }
  assert (Hstop : forall m : list ascii,
             match m with
             | [] => True
             | a :: r =>
                 PyStr.space1 a = false
                 /\ match r with
                    | [] => True
                    | b :: r' =>
                        PyStr.space2 a b = false
                        /\ match r' with
                           | [] => True
                           | c :: _ => PyStr.space3 a b c = false
                           end
                    end
             end ->
             forall w, w ∈ space_words -> ~ w `prefix_of` m).
  { intros m Hm w Hw Hpre. pose proof (space_word_head w m Hw Hpre) as Hhead.
    unfold seen_at_head in Hhead.
    destruct m as [|a [|b [|c r]]]; [done|..].
    - destruct Hm as [H1 _]. destruct Hhead as [?|[]]. congruence.
    - destruct Hm as (H1 & H2 & _). destruct Hhead as [?|[?|[]]]; congruence.
    - destruct Hm as (H1 & H2 & H3).
      destruct Hhead as [?|[?|?]]; congruence. }
  destruct l as [|a r]; simpl.
  { exists []. split; [apply blank_nil|]. split; [done|]. by apply Hstop. }
  destruct (PyStr.space1 a) eqn:H1.
  { destruct (IH r ltac:(simpl in Hlen; lia)) as (pre & Hblank & Heq & Hno).
    exists ([a] ++ pre). split; [by apply blank_cons, Hblank; apply space1_word|].
    split; [|done]. simpl. by f_equal. }
  destruct r as [|b r'].
  { exists []. split; [apply blank_nil|]. split; [done|]. by apply Hstop. }
  destruct (PyStr.space2 a b) eqn:H2.
  { destruct (IH r' ltac:(simpl in Hlen; lia)) as (pre & Hblank & Heq & Hno).
    exists ([a; b] ++ pre).
    split; [by apply blank_cons, Hblank; apply space2_word|].
    split; [|done]. simpl. by do 2 f_equal. }
  destruct r' as [|c r''].
  { exists []. split; [apply blank_nil|]. split; [done|]. by apply Hstop. }
  destruct (PyStr.space3 a b c) eqn:H3.
  { destruct (IH r'' ltac:(simpl in Hlen; lia)) as (pre & Hblank & Heq & Hno).
    exists ([a; b; c] ++ pre).
    split; [by apply blank_cons, Hblank; apply space3_word|].
    split; [|done]. simpl. by do 3 f_equal. }
  exists []. split; [apply blank_nil|]. split; [done|]. by apply Hstop.
Qed.

Lemma lstrip_rev_bytes_spec (n : nat) :
  forall l : list ascii,
    (length l <= n)%nat ->
    exists p : list ascii,
      blank (rev p)
      /\ l = p ++ PyStr.lstrip_rev_bytes l
      /\ forall w, w ∈ space_words ->
                   ~ rev w `prefix_of` PyStr.lstrip_rev_bytes l.
Proof.
  induction n as [|n IH]; intros l Hlen.
  { destruct l; [|simpl in Hlen; lia]. exists []. split; [apply blank_nil|].
    split; [done|]. intros w Hw Hpre. by apply (space_word_last w []). }
  assert (Hstop : forall m : list ascii,
             match m with
             | [] => True
             | z :: r =>
                 PyStr.space1 z = false
                 /\ match r with
                    | [] => True
                    | y :: r' =>
                        PyStr.space2 y z = false
                        /\ match r' with
                           | [] => True
                           | x :: _ => PyStr.space3 x y z = false
                           end
                    end
             end ->
             forall w, w ∈ space_words -> ~ rev w `prefix_of` m).
  { intros m Hm w Hw Hpre. pose proof (space_word_last w m Hw Hpre) as Hhead.
    unfold seen_at_end in Hhead.
    destruct m as [|z [|y [|x r]]]; [done|..].
    - destruct Hm as [H1 _]. destruct Hhead as [?|[]]. congruence.
    - destruct Hm as (H1 & H2 & _). destruct Hhead as [?|[?|[]]]; congruence.
    - destruct Hm as (H1 & H2 & H3).
      destruct Hhead as [?|[?|?]]; congruence. }
  assert (Hblank_snoc : forall (w p : list ascii),
             w ∈ space_words -> blank (rev p) -> blank (rev (rev w ++ p))).
  { intros w p Hw Hp. rewrite rev_app_distr, rev_involutive.
    apply blank_app; [done|]. rewrite <- (app_nil_r w).
    by apply blank_cons, blank_nil. }
  destruct l as [|z r]; simpl.
  { exists []. split; [apply blank_nil|]. split; [done|]. by apply Hstop. }
  destruct (PyStr.space1 z) eqn:H1.
  { destruct (IH r ltac:(simpl in Hlen; lia)) as (p & Hblank & Heq & Hno).
    exists (rev [z] ++ p).
    split; [by apply Hblank_snoc, Hblank; apply space1_word|].
    split; [|done]. simpl. by f_equal. }
  destruct r as [|y r'].
  { exists []. split; [apply blank_nil|]. split; [done|]. by apply Hstop. }
  destruct (PyStr.space2 y z) eqn:H2.
  { destruct (IH r' ltac:(simpl in Hlen; lia)) as (p & Hblank & Heq & Hno).
    exists (rev [y; z] ++ p).
    split; [by apply Hblank_snoc, Hblank; apply space2_word|].
    split; [|done]. simpl. by do 2 f_equal. }
  destruct r' as [|x r''].
  { exists []. split; [apply blank_nil|]. split; [done|]. by apply Hstop. }
  destruct (PyStr.space3 x y z) eqn:H3.
  { destruct (IH r'' ltac:(simpl in Hlen; lia)) as (p & Hblank & Heq & Hno).
    exists (rev [x; y; z] ++ p).
    split; [by apply Hblank_snoc, Hblank; apply space3_word|].
    split; [|done]. simpl. by do 3 f_equal. }
  exists []. split; [apply blank_nil|]. split; [done|]. by apply Hstop.
Qed.

(** [str.strip] trims. *)
Lemma strip_trimmed (t : string) : trimmed t (PyStr.strip t).
Proof.
  unfold trimmed, PyStr.strip, PyStr.rstrip_bytes.
  rewrite list_ascii_of_string_of_list_ascii.
  set (l := list_ascii_of_string t).
  destruct (lstrip_bytes_spec (length l) l ltac:(done))
    as (pre & Hpre & Hl & Hhead).
  set (m := PyStr.lstrip_bytes l) in *.
  destruct (lstrip_rev_bytes_spec (length (rev m)) (rev m) ltac:(done))
    as (p & Hp & Hm & Hlast).
  set (body := rev (PyStr.lstrip_rev_bytes (rev m))) in *.
  assert (Hbody : m = body ++ rev p).
  { rewrite <- (rev_involutive m), Hm, rev_app_distr. done. }
  exists pre, (rev p). split; [by rewrite Hl, Hbody|].
  split; [done|]. split; [done|]. split.
  - intros w Hw [k Hk]. apply (Hhead w Hw). exists (k ++ rev p).
    by rewrite Hbody, Hk, <- app_assoc.
  - intros w Hw [k Hk]. apply (Hlast w Hw). exists (rev k).
    by rewrite <- (rev_involutive (PyStr.lstrip_rev_bytes (rev m))),
         <- rev_app_distr; fold body; rewrite Hk.
Qed.

Lemma join_document (blocks : list string) :
  PyStr.join (nl +:+ nl) blocks = document blocks.
Proof.
  induction blocks as [|b [|b' rest] IH]; [done..|].
  change (b +:+ (nl +:+ nl) +:+ PyStr.join (nl +:+ nl) (b' :: rest)
          = b +:+ nl +:+ nl +:+ document (b' :: rest)).
  rewrite IH. clear. induction b as [|c b IHb]; [done|].
  change (String c (b +:+ (nl +:+ nl) +:+ document (b' :: rest))
          = String c (b +:+ nl +:+ nl +:+ document (b' :: rest))).
  by rewrite IHb.
Qed.

(** *** Entries read *)

Lemma assoc_first (k : string) (x : pyval) (before after : list (string * pyval)) :
  k ∉ before.*1 -> assoc k (before ++ (k, x) :: after) = Some x.
Proof.
  induction before as [|[k' x'] before IH]; intros Hfresh; simpl.
  - by rewrite String.eqb_refl.
  - rewrite fmap_cons in Hfresh. apply not_elem_of_cons in Hfresh as [Hne Hfresh].
    simpl in Hne. apply String.eqb_neq in Hne. rewrite Hne. by apply IH.
Qed.

Lemma getitem_str_entry (v : pyval) (k : string) (x : pyval) :
  has_entry v k x -> getitem_str v k = inr x.
Proof.
  intros (before & after & -> & Hfresh). simpl.
  by rewrite assoc_first.
Qed.

Lemma getitem_0_first (v x : pyval) : has_first v x -> getitem_0 v = inr x.
Proof. by intros [rest ->]. Qed.

(** ** The extractor *)

Section Extractor.

Context (W : World).

Lemma default_py_or (x : option string) : py_or x "" = default "" x.
Proof. by destruct x as [[|??]|]. Qed.

(** The loop appends, to what it was given, the blocks of the remaining
    pages numbered from [i]. *)
Lemma extract_pages_blocks (pages : list (page W))
    (texts : list (option string)) :
  Forall2 (fun p t => extract_text W p = inr t) pages texts ->
  forall (i : Z) (pages_md : list string),
    extract_pages W i pages pages_md
    = inr (pages_md ++ imap (fun k t => page_block (i + Z.of_nat k) t) texts).
Proof.
  induction 1 as [|p t pages texts Hp _ IH]; intros i pages_md; simpl.
  - by rewrite app_nil_r.
  - rewrite Hp, IH, <- app_assoc. simpl. do 3 f_equal.
    + unfold page_block. by rewrite default_py_or, Z.add_0_r.
    + apply imap_ext. intros k x _. simpl. f_equal. lia.
Qed.

(** The loop stops at the first page whose extraction raises. *)
Lemma extract_pages_raises (pages : list (page W)) :
  Exists (fun p => exists ex, extract_text W p = inl ex) pages ->
  forall (i : Z) (pages_md : list string),
    exists ex, extract_pages W i pages pages_md = inl ex.
Proof.
  induction pages as [|p pages IH]; intros Hex i pages_md.
  - by apply Exists_nil in Hex.
  - simpl. destruct (extract_text W p) as [ex|t] eqn:Hp; [by exists ex|].
    apply IH. apply Exists_cons in Hex as [[ex Hex]|]; [congruence|done].
Qed.

(** C1.  On a valid PDF ([pdfplumber] imported, the bytes open as [pages],
    every page yields its text [texts]), [pdf_to_markdown] shows nothing,
    leaves the session alone and returns the blocks of the pages, in the
    order of the pages, each followed by a blank line but the last.  There
    is one block per page.  The block at position [k] is ["## Page "], the
    decimal numeral of [k + 1], a blank line and a body; the body is the
    text of the page at position [k] without the white space at its two
    ends, and it is empty for a page without text ([None] or [""]). *)
Theorem pdf_to_markdown_valid (pdf_bytes : list Byte.byte)
    (pages : list (page W)) (texts : list (option string)) (s : session) :
  _PDFPLUMBER_AVAILABLE W = true ->
  pdfplumber_open W pdf_bytes = inr pages ->
  Forall2 (fun p t => extract_text W p = inr t) pages texts ->
  pdf_to_markdown W pdf_bytes s
  = (Val (PyStr.join (nl +:+ nl) (page_blocks texts)), s, [])
  /\ PyStr.join (nl +:+ nl) (page_blocks texts) = document (page_blocks texts)
  /\ length (page_blocks texts) = length pages
  /\ (forall (k : nat) (t : option string),
        texts !! k = Some t ->
        exists number body : string,
          page_blocks texts !! k
          = Some ("## Page " +:+ number +:+ nl +:+ nl +:+ body)
          /\ read_int number = Some (Z.of_nat k + 1)
          /\ trimmed (default "" t) body
          /\ (truthy t = false -> body = ""))
  /\ (forall (k : nat) (t : option string),
        texts !! k = Some t ->
        page_blocks texts !! k
        = Some ("## Page " +:+ PyStr.of_int (Z.of_nat k + 1) +:+ nl +:+ nl
                +:+ PyStr.strip (default "" t)))
  /\ (forall (k : nat) (t : option string),
        texts !! k = Some t -> truthy t = false ->
        page_blocks texts !! k
        = Some ("## Page " +:+ PyStr.of_int (Z.of_nat k + 1) +:+ nl +:+ nl)).
Proof.
  intros Havail Hopen Hpages.
  assert (Hk : forall (k : nat) (t : option string),
             texts !! k = Some t ->
             page_blocks texts !! k = Some (page_block (Z.of_nat k + 1) t)).
  { intros k t Ht. unfold page_blocks.
    by rewrite list_lookup_imap, Ht. }
  split; [|split; [|split; [|split; [|split]]]].
  - unfold pdf_to_markdown. rewrite Havail. simpl.
    script_unfold. rewrite Hopen.
    rewrite (extract_pages_blocks pages texts Hpages 1 []). simpl.
    do 4 f_equal. apply imap_ext. intros k x _. simpl. f_equal. lia.
  - apply join_document.
  - unfold page_blocks. rewrite length_imap.
    symmetry. by eapply Forall2_length.
  - intros k t Ht. rewrite (Hk k t Ht). unfold page_block.
    exists (PyStr.of_int (Z.of_nat k + 1)), (PyStr.strip (default "" t)).
    split; [done|]. split; [apply read_int_of_int|].
    split; [apply strip_trimmed|]. by destruct t as [[|??]|].
  - intros k t Ht. by rewrite (Hk k t Ht).
  - intros k t Ht Hfalsy. rewrite (Hk k t Ht). unfold page_block.
    by destruct t as [[|??]|].
Qed.

(** *** Failures *)

Lemma pdf_to_markdown_unavailable (pdf_bytes : list Byte.byte) (s : session) :
  _PDFPLUMBER_AVAILABLE W = false ->
  pdf_to_markdown W pdf_bytes s = (Val "", s, [UI (Error (import_failed_msg W))]).
Proof. intros Havail. unfold pdf_to_markdown. by rewrite Havail. Qed.

Lemma pdf_to_markdown_open_raises (pdf_bytes : list Byte.byte) (ex : exn)
    (s : session) :
  _PDFPLUMBER_AVAILABLE W = true ->
  pdfplumber_open W pdf_bytes = inl ex ->
  pdf_to_markdown W pdf_bytes s
  = (Val "", s, [UI (Error (parsing_failed_msg W ex))]).
Proof.
  intros Havail Hopen. unfold pdf_to_markdown. rewrite Havail. simpl.
  script_unfold. by rewrite Hopen.
Qed.

Lemma pdf_to_markdown_page_raises (pdf_bytes : list Byte.byte)
    (pages : list (page W)) (s : session) :
  _PDFPLUMBER_AVAILABLE W = true ->
  pdfplumber_open W pdf_bytes = inr pages ->
  Exists (fun p => exists ex, extract_text W p = inl ex) pages ->
  exists ex,
    pdf_to_markdown W pdf_bytes s
    = (Val "", s, [UI (Error (parsing_failed_msg W ex))]).
Proof.
  intros Havail Hopen Hpage.
  destruct (extract_pages_raises pages Hpage 1 []) as [ex Hex].
  exists ex. unfold pdf_to_markdown. rewrite Havail. simpl.
  script_unfold. by rewrite Hopen, Hex.
Qed.

(** Whatever the bytes, the function returns: what it returns and what it
    shows depend on the bytes only, and the session is as it was. *)
Lemma pdf_to_markdown_returns (pdf_bytes : list Byte.byte) :
  exists (md : string) (evs : list event),
    network_calls evs = []
    /\ forall s : session, pdf_to_markdown W pdf_bytes s = (Val md, s, evs).
Proof.
  unfold pdf_to_markdown.
  destruct (_PDFPLUMBER_AVAILABLE W); simpl; script_unfold.
  - destruct (pdfplumber_open W pdf_bytes) as [ex|pages].
    { do 2 eexists. split; [|intros s; reflexivity]. reflexivity. }
    destruct (extract_pages W 1 pages []) as [ex|pages_md].
    all: do 2 eexists; (split; [|intros s; reflexivity]); reflexivity.
  - do 2 eexists. split; [|intros s; reflexivity]. reflexivity.
Qed.

(** The conversion, which is where the script calls the extractor, ends
    normally on every input. *)
Lemma convert_returns (inp : inputs) (s : session) :
  exists (s' : session) (evs : list event),
    convert W inp s = (Val tt, s', evs).
Proof.
  unfold convert.
  destruct (analyze_button inp); [|by do 2 eexists].
  destruct (uploaded_pdf inp) as [pdf_bytes|]; [|by do 2 eexists].
  destruct (pdf_to_markdown_returns pdf_bytes) as (md & evs & _ & Hrun).
  script_unfold. rewrite Hrun. by do 2 eexists.
Qed.

(** C5.  When [pdfplumber] could not be imported, when opening the bytes
    raises, and when extracting a page raises, [pdf_to_markdown] returns
    the empty string after showing one error message.  It ends normally on
    every input, and so does the conversion that calls it: no exception
    leaves either. *)
Theorem pdf_to_markdown_failure (pdf_bytes : list Byte.byte) (s : session) :
  (_PDFPLUMBER_AVAILABLE W = false ->
   pdf_to_markdown W pdf_bytes s
   = (Val "", s, [UI (Error (import_failed_msg W))]))
  /\ (forall ex : exn,
        _PDFPLUMBER_AVAILABLE W = true ->
        pdfplumber_open W pdf_bytes = inl ex ->
        pdf_to_markdown W pdf_bytes s
        = (Val "", s, [UI (Error (parsing_failed_msg W ex))]))
  /\ (forall pages : list (page W),
        _PDFPLUMBER_AVAILABLE W = true ->
        pdfplumber_open W pdf_bytes = inr pages ->
        Exists (fun p => exists ex, extract_text W p = inl ex) pages ->
        exists ex : exn,
          pdf_to_markdown W pdf_bytes s
          = (Val "", s, [UI (Error (parsing_failed_msg W ex))]))
  /\ (exists (md : string) (evs : list event),
        pdf_to_markdown W pdf_bytes s = (Val md, s, evs))
  /\ (forall inp : inputs,
        exists (s' : session) (evs : list event),
          convert W inp s = (Val tt, s', evs)).
Proof.
  repeat split.
  - apply pdf_to_markdown_unavailable.
  - intros ex. apply pdf_to_markdown_open_raises.
  - intros pages. apply pdf_to_markdown_page_raises.
  - destruct (pdf_to_markdown_returns pdf_bytes) as (md & evs & _ & Hrun).
    by exists md, evs.
  - intros inp. apply convert_returns.
Qed.

End Extractor.

(** ** The dispatcher *)

(** Every name offered by the select box is a key of the table: a
    [KeyError] at [LANG_NAME_TO_CODE[target]] needs a target that the widget
    cannot return. *)
Lemma langs_supported :
  Forall (fun name => is_Some (LANG_NAME_TO_CODE !! name)) langs.
Proof. apply (bool_decide_unpack _). vm_compute. exact I. Qed.

Example lang_code_French : lang_code "French" = inr "FR".
Proof. vm_compute. reflexivity. Qed.

Example lang_code_Bokmal : lang_code "Norwegian (Bokmål)" = inr "NB".
Proof. vm_compute. reflexivity. Qed.

Section Dispatcher.

Context (W : World).

(** *** The dedicated API *)

(** C3.  For a target that is not a key of [LANG_NAME_TO_CODE], in a
    session that has the [DEEPL_API_KEY] entry, the DeepL path stops at the
    lookup [LANG_NAME_TO_CODE[target]]: the [KeyError] on the target is
    caught and shown as an error, and no call goes out. *)
Theorem translate_deepl_unsupported (target : string)
    (src_md auth_key : option string) (s : session) :
  LANG_NAME_TO_CODE !! target = None ->
  s !! "DEEPL_API_KEY" = Some auth_key ->
  translate_deepl W target src_md s
  = (Val tt, s,
     [UI (Error (deepl_request_failed_msg W (KeyError (IStr target))))])
  /\ network_calls (translate_deepl W target src_md s).2 = [].
Proof.
  intros Htarget Hkey.
  assert (Hrun : translate_deepl W target src_md s
                 = (Val tt, s,
                    [UI (Error (deepl_request_failed_msg W
                                  (KeyError (IStr target))))])).
  { unfold translate_deepl, lang_code. script_unfold.
    by rewrite Hkey, Htarget. }
  by rewrite Hrun.
Qed.

Lemma translate_deepl_sends (target code : string)
    (src_md auth_key : option string) (s : session) :
  LANG_NAME_TO_CODE !! target = Some code ->
  s !! "DEEPL_API_KEY" = Some auth_key ->
  exists evs : list event,
    translate_deepl W target src_md s
    = (Val tt, s, Net (HttpPost (deepl_request auth_key src_md code)) :: evs)
    /\ network_calls evs = [].
Proof.
  intros Htarget Hkey.
  unfold translate_deepl, lang_code, post. script_unfold.
  rewrite Hkey, Htarget. fold (deepl_request auth_key src_md code).
  destruct (requests_post W _) as [ex|resp]; [by eexists|].
  destruct (status_code resp =? 200); [|by eexists].
  destruct (json resp) as [ex|body]; [by eexists|].
  destruct (getitem_str body "translations") as [ex|translations];
    [by eexists|].
  destruct (getitem_0 translations) as [ex|first]; [by eexists|].
  destruct (getitem_str first "text") as [ex|trans]; by eexists.
Qed.

(** C4.  For a supported target, in a session that has the
    [DEEPL_API_KEY] entry, the DeepL path sends one POST, to the DeepL
    address, with the stored key, the source text, the code of the target
    and timeout 30, and then:
    - on status 200 with the JSON body [{"translations": [{"text": t}]}],
      and with any body whose ["translations"] is a list whose first item
      has the entry ["text"], shows the header and then [t] as it is;
    - on any other status, shows ["DeepL error "], the decimal numeral of
      the status, [": "] and the body of the response;
    - when the call raises, shows ["DeepL request failed:"] with the text of
      the exception. *)
Theorem translate_deepl_outcomes (target code : string)
    (src_md auth_key : option string) (s : session) :
  LANG_NAME_TO_CODE !! target = Some code ->
  s !! "DEEPL_API_KEY" = Some auth_key ->
  let req := {| url := "https://api-free.deepl.com/v2/translate";
                data_auth_key := auth_key;
                data_text := src_md;
                data_target_lang := code;
                timeout := 30 |} in
  (forall (resp : response) (t : string),
      requests_post W req = inr resp ->
      status_code resp = 200 ->
      json resp
      = inr (PDict [("translations", PList [PDict [("text", PStr t)]])]) ->
      translate_deepl W target src_md s
      = (Val tt, s,
         [Net (HttpPost req);
          UI (Markdown (PStr ("## 🌐 Translated (" +:+ target +:+ ")")));
          UI (Markdown (PStr t))]))
  /\ (forall (resp : response) (body translations first t : pyval),
        requests_post W req = inr resp ->
        status_code resp = 200 ->
        json resp = inr body ->
        has_entry body "translations" translations ->
        has_first translations first ->
        has_entry first "text" t ->
        translate_deepl W target src_md s
        = (Val tt, s,
           [Net (HttpPost req);
            UI (Markdown (PStr ("## 🌐 Translated (" +:+ target +:+ ")")));
            UI (Markdown t)]))
  /\ (forall resp : response,
        requests_post W req = inr resp ->
        status_code resp <> 200 ->
        translate_deepl W target src_md s
        = (Val tt, s,
           [Net (HttpPost req);
            UI (Error ("DeepL error " +:+ PyStr.of_int (status_code resp)
                       +:+ ": " +:+ text resp))])
        /\ read_int (PyStr.of_int (status_code resp))
           = Some (status_code resp))
  /\ (forall ex : exn,
        requests_post W req = inl ex ->
        translate_deepl W target src_md s
        = (Val tt, s,
           [Net (HttpPost req);
            UI (Error ("DeepL request failed:" +:+ nl +:+ nl
                       +:+ "```" +:+ nl +:+ str_exn W ex +:+ nl +:+ "```"))]))
  /\ (forall r : post_request,
        HttpPost r ∈ network_calls (translate_deepl W target src_md s).2 ->
        r = req).
Proof.
  intros Htarget Hkey req.
  assert (Hgeneral : forall (resp : response) (body translations first t : pyval),
             requests_post W req = inr resp ->
             status_code resp = 200 ->
             json resp = inr body ->
             has_entry body "translations" translations ->
             has_first translations first ->
             has_entry first "text" t ->
             translate_deepl W target src_md s
             = (Val tt, s,
                [Net (HttpPost req);
                 UI (Markdown (PStr ("## 🌐 Translated (" +:+ target +:+ ")")));
                 UI (Markdown t)])).
  { intros resp body translations first t Hpost Hstatus Hjson Hbody Hfirst Ht.
    unfold translate_deepl, lang_code, post. script_unfold.
    rewrite Hkey, Htarget. fold req. rewrite Hpost, Hstatus, Hjson.
    cbn [Z.eqb Pos.eqb].
    rewrite (getitem_str_entry body "translations" translations Hbody).
    rewrite (getitem_0_first translations first Hfirst).
    by rewrite (getitem_str_entry first "text" t Ht). }
  split; [|split; [|split; [|split]]].
  - intros resp t Hpost Hstatus Hjson.
    apply (Hgeneral resp _ (PList [PDict [("text", PStr t)]])
             (PDict [("text", PStr t)]) (PStr t) Hpost Hstatus Hjson).
    + exists [], []. split; [done|]. apply not_elem_of_nil.
    + by exists [].
    + exists [], []. split; [done|]. apply not_elem_of_nil.
  - exact Hgeneral.
  - intros resp Hpost Hstatus. split; [|apply read_int_of_int].
    unfold translate_deepl, lang_code, post. script_unfold.
    rewrite Hkey, Htarget. fold req. rewrite Hpost.
    destruct (Z.eqb_spec (status_code resp) 200); [done|]. reflexivity.
  - intros ex Hpost.
    unfold translate_deepl, lang_code, post. script_unfold.
    rewrite Hkey, Htarget. fold req. by rewrite Hpost.
  - intros r.
    destruct (translate_deepl_sends target code src_md auth_key s
                Htarget Hkey) as (evs & -> & Hevs).
    simpl. rewrite Hevs. intros Hin%list_elem_of_singleton.
    by injection Hin.
Qed.

(** *** The LLM *)

Lemma o3mini_request_system_msg (target : string) (src_md : option string) :
  o3mini_request target src_md
  = {| model := "o3-mini";
       messages := [ ("system", Some (system_msg target));
                     ("user", src_md) ] |}.
Proof. reflexivity. Qed.


(** Without a client nothing is sent: reading [.chat] of [None] raises,
    and the handler shows that exception. *)
Lemma translate_o3mini_no_client (target : string) (src_md : option string)
    (s : session) :
  translate_o3mini W None target src_md s
  = (Val tt, s, [UI (Error (o3mini_error_msg W (AttributeError "chat")))]).
Proof. reflexivity. Qed.

(** *** English *)

(** C6.  When the session holds a Markdown document and the selected
    target is ["English"], the translation section shows the select box
    and the message that no translation is needed, and nothing else: no
    button, no call to either service, and the session is as it was. *)
Theorem translation_english_noop (inp : inputs) (client : option string)
    (s : session) :
  truthy (default None (s !! "analysis_result")) = true ->
  target inp = "English" ->
  translation_section W inp client s
  = (Val tt, s,
     [UI (Subheader "🌐 Translate Markdown");
      UI (Selectbox "Target language:" langs);
      UI (Info "Already in English — no translation needed.")])
  /\ network_calls (translation_section W inp client s).2 = [].
Proof.
  intros Hmd Htarget.
  assert (Hrun : translation_section W inp client s
                 = (Val tt, s,
                    [UI (Subheader "🌐 Translate Markdown");
                     UI (Selectbox "Target language:" langs);
                     UI (Info "Already in English — no translation needed.")])).
  { unfold translation_section. script_unfold.
    by rewrite Hmd, Htarget. }
  by rewrite Hrun.
Qed.

(** Without a Markdown document the section stops at its first test. *)
Lemma translation_section_blocked (inp : inputs) (client : option string)
    (s : session) :
  truthy (default None (s !! "analysis_result")) = false ->
  translation_section W inp client s
  = (Val tt, s,
     [UI (Subheader "🌐 Translate Markdown");
      UI (Info "Run analysis/conversion first.")]).
Proof.
  intros Hmd. unfold translation_section. script_unfold. by rewrite Hmd.
Qed.

End Dispatcher.

(** ** What a piece of script leaves alone *)

#[global] Instance same_at_preorder (k : string) : PreOrder (same_at k).
Proof.
  split.
  - by intros s.
  - intros s1 s2 s3 H12 H23. unfold same_at in *. congruence.
Qed.

Section Respects.

Context (R : relation session) `{!PreOrder R}.

Lemma respects_ret {A} (a : A) : respects R (mret a).
Proof. intros s. simpl. reflexivity. Qed.

Lemma respects_bind {A B} (m : script A) (f : A -> script B) :
  respects R m -> (forall a, respects R (f a)) -> respects R (m ≫= f).
Proof.
  intros Hm Hf s. specialize (Hm s).
  unfold mbind, script_mbind, script_bind.
  destruct (m s) as [[[a|ex|] s1] ev1]; simpl in *; try done.
  specialize (Hf a s1). destruct (f a s1) as [[o s2] ev2]; simpl in *.
  by etrans.
Qed.

Lemma respects_try_except {A} (body : script A) (handler : exn -> script A) :
  respects R body -> (forall ex, respects R (handler ex)) ->
  respects R (try_except body handler).
Proof.
  intros Hm Hf s. specialize (Hm s). unfold try_except.
  destruct (body s) as [[[a|ex|] s1] ev1]; simpl in *; try done.
  specialize (Hf ex s1). destruct (handler ex s1) as [[o s2] ev2]; simpl in *.
  by etrans.
Qed.

Lemma respects_raise {A} (ex : exn) : respects R (raise (A := A) ex).
Proof. intros s. simpl. reflexivity. Qed.

Lemma respects_rerun {A} : respects R (st_rerun (A := A)).
Proof. intros s. simpl. reflexivity. Qed.

Lemma respects_emit (ev : event) : respects R (emit ev).
Proof. intros s. simpl. reflexivity. Qed.

Lemma respects_st (e : element) : respects R (st e).
Proof. apply respects_emit. Qed.

Lemma respects_lift {A} (r : exn + A) : respects R (lift r).
Proof. destruct r; [apply respects_raise|apply respects_ret]. Qed.

Lemma respects_when (c : bool) (body : script unit) :
  respects R body -> respects R (when c body).
Proof. destruct c; [done|]. intros _. apply respects_ret. Qed.

Lemma respects_getattr (k : string) : respects R (getattr k).
Proof. intros s. unfold getattr. destruct (s !! k); simpl; reflexivity. Qed.

Lemma respects_getitem (k : string) : respects R (getitem k).
Proof. intros s. unfold getitem. destruct (s !! k); simpl; reflexivity. Qed.

Lemma respects_get (k : string) : respects R (get k).
Proof. intros s. simpl. reflexivity. Qed.

Lemma respects_assign (k : string) (v : option string) :
  (forall s, R s (<[k := v]> s)) -> respects R (assign k v).
Proof. intros Hins s. apply Hins. Qed.

Lemma respects_setdefault (k : string) (v : option string) :
  (forall s, R s (<[k := v]> s)) -> respects R (setdefault k v).
Proof.
  intros Hins s. unfold setdefault.
  destruct (s !! k); simpl; [reflexivity|apply Hins].
Qed.

End Respects.

Lemma same_at_insert (k k' : string) (v : option string) (s : session) :
  k' <> k -> same_at k s (<[k' := v]> s).
Proof. intros Hne. unfold same_at. by rewrite lookup_insert_ne. Qed.

(** Goes through a piece of script by its structure, using the hypotheses
    about the pieces it calls; what remains are the assignments to the
    session. *)
Ltac respects_step :=
  first
    [ match goal with
      | |- PreOrder _ => exact _
      | H : context [respects] |- respects _ _ => apply H
      end
    | apply respects_bind | apply respects_try_except | apply respects_ret
    | apply respects_raise | apply respects_rerun | apply respects_st
    | apply respects_emit | apply respects_lift | apply respects_when
    | apply respects_getattr | apply respects_getitem | apply respects_get
    | apply respects_assign | apply respects_setdefault
    | match goal with
      | |- respects _ (if ?c then _ else _) => destruct c
      | |- respects _ (match ?x with _ => _ end) => destruct x
      | |- forall _, _ => intro
      end ].

Ltac respects_auto := repeat respects_step.

Section Shell.

Context (W : World).

Lemma pdf_to_markdown_respects (R : relation session) `{!PreOrder R}
    (pdf_bytes : list Byte.byte) :
  respects R (pdf_to_markdown W pdf_bytes).
Proof. unfold pdf_to_markdown. respects_auto. Qed.

Lemma translate_respects (R : relation session) `{!PreOrder R}
    (provider : string) (client : option string) (target : string) :
  respects R (translate W provider client target).
Proof.
  unfold translate, translate_deepl, translate_o3mini, post, create.
  respects_auto.
Qed.

Lemma translation_section_respects (R : relation session) `{!PreOrder R}
    (inp : inputs) (client : option string) :
  respects R (translation_section W inp client).
Proof.
  pose proof (translate_respects R) as Htranslate.
  unfold translation_section, credential_warnings. respects_auto.
Qed.

Lemma translation_section_keeps (inp : inputs) (client : option string) :
  keeps_session (translation_section W inp client).
Proof. apply translation_section_respects, _. Qed.

Lemma convert_respects (k : string) (inp : inputs) :
  k <> "analysis_result" -> respects (same_at k) (convert W inp).
Proof.
  intros Hne. pose proof (pdf_to_markdown_respects (same_at k)) as Hpdf.
  unfold convert. respects_auto.
  intros s. by apply same_at_insert.
Qed.

Lemma sidebar_respects (inp : inputs) :
  respects (same_at "analysis_result") (sidebar inp).
Proof.
  unfold sidebar, sidebar_openai, sidebar_deepl. respects_auto.
  all: intros s; by apply same_at_insert.
Qed.

Lemma main_respects (inp : inputs) :
  analyze_button inp = false ->
  respects (same_at "analysis_result") (main W inp).
Proof.
  intros Hbutton.
  pose proof (sidebar_respects inp) as Hsidebar.
  pose proof (translation_section_respects (same_at "analysis_result") inp)
    as Htranslation.
  unfold main, openai_client, convert. rewrite Hbutton. respects_auto.
  all: intros s; by apply same_at_insert.
Qed.

(** C8.  The translation section, however it ends, leaves the whole
    session as it was, and so does not touch the stored Markdown; a run of
    the script in which the conversion button was not pressed leaves the
    stored Markdown as it was; the conversion, however it ends, leaves the
    two keys as they were. *)
Theorem failures_preserve_results (inp : inputs) (client : option string)
    (s : session) :
  (translation_section W inp client s).1.2 = s
  /\ (analyze_button inp = false ->
      (main W inp s).1.2 !! "analysis_result" = s !! "analysis_result")
  /\ (convert W inp s).1.2 !! "OPENAI_API_KEY" = s !! "OPENAI_API_KEY"
  /\ (convert W inp s).1.2 !! "DEEPL_API_KEY" = s !! "DEEPL_API_KEY".
Proof.
  repeat split.
  - symmetry. apply translation_section_keeps.
  - intros Hbutton. by apply main_respects.
  - by apply convert_respects.
  - by apply convert_respects.
Qed.

(** *** Conversion and what the translation section sees of it *)

(** A conversion with a file stores what [pdf_to_markdown] returned. *)
Lemma convert_stores (inp : inputs) (pdf_bytes : list Byte.byte)
    (md : string) (evs : list event) (s : session) :
  analyze_button inp = true ->
  uploaded_pdf inp = Some pdf_bytes ->
  pdf_to_markdown W pdf_bytes s = (Val md, s, evs) ->
  convert W inp s
  = (Val tt, <["analysis_result" := Some md]> s,
     UI (Subheader "📄 PDF → Markdown")
     :: evs ++ [UI (Markdown (PStr "### Resulting Markdown"));
                UI (Markdown (PStr (py_or (Some md) "*No output*")))]).
Proof.
  intros Hbutton Hfile Hrun. unfold convert. rewrite Hbutton, Hfile.
  script_unfold. by rewrite Hrun.
Qed.

Lemma pdf_to_markdown_no_pages (pdf_bytes : list Byte.byte) (s : session) :
  _PDFPLUMBER_AVAILABLE W = true ->
  pdfplumber_open W pdf_bytes = inr [] ->
  pdf_to_markdown W pdf_bytes s = (Val "", s, []).
Proof.
  intros Havail Hopen. unfold pdf_to_markdown. rewrite Havail. simpl.
  script_unfold. by rewrite Hopen.
Qed.

(** C10.  For bytes that open as a PDF without pages, [pdf_to_markdown]
    returns the empty string and shows nothing.  That is the value it
    returns for bytes that fail to open, and the conversion stores the
    same session in both cases.  On that session the translation section
    only asks to run the conversion first, whatever the widgets say. *)
Theorem empty_pdf_like_failure (inp : inputs) (pdf_bytes : list Byte.byte)
    (s : session) :
  _PDFPLUMBER_AVAILABLE W = true ->
  pdfplumber_open W pdf_bytes = inr [] ->
  analyze_button inp = true ->
  uploaded_pdf inp = Some pdf_bytes ->
  pdf_to_markdown W pdf_bytes s = (Val "", s, [])
  /\ (convert W inp s).1.2 = <["analysis_result" := Some ""]> s
  /\ (forall (inp_bad : inputs) (bad : list Byte.byte) (ex : exn),
        analyze_button inp_bad = true ->
        uploaded_pdf inp_bad = Some bad ->
        pdfplumber_open W bad = inl ex ->
        (pdf_to_markdown W bad s).1.1 = (pdf_to_markdown W pdf_bytes s).1.1
        /\ (convert W inp_bad s).1.2 = (convert W inp s).1.2)
  /\ (forall (inp' : inputs) (client : option string),
        translation_section W inp' client (convert W inp s).1.2
        = (Val tt, (convert W inp s).1.2,
           [UI (Subheader "🌐 Translate Markdown");
            UI (Info "Run analysis/conversion first.")])).
Proof.
  intros Havail Hopen Hbutton Hfile.
  pose proof (pdf_to_markdown_no_pages pdf_bytes s Havail Hopen) as Hrun.
  pose proof (convert_stores inp pdf_bytes "" [] s Hbutton Hfile Hrun)
    as Hconvert.
  repeat split.
  - done.
  - by rewrite Hconvert.
  - by rewrite Hrun, (pdf_to_markdown_open_raises W bad ex s).
  - rename select (analyze_button inp_bad = true) into Hbutton_bad.
    rename select (uploaded_pdf inp_bad = Some bad) into Hfile_bad.
    rename select (pdfplumber_open W bad = inl ex) into Hopen_bad.
    rewrite Hconvert.
    by rewrite (convert_stores inp_bad bad "" _ s Hbutton_bad Hfile_bad
                  (pdf_to_markdown_open_raises W bad ex s Havail Hopen_bad)).
  - intros inp' client. rewrite Hconvert. simpl.
    apply translation_section_blocked. by rewrite lookup_insert_eq.
Qed.

(** *** The credential warnings do not stop the translation *)

(** With the DeepL provider, a Markdown document, a supported target other
    than English and the button pressed, the translation section sends the
    POST whatever the [DEEPL_API_KEY] entry holds: when the key is unset
    it shows the warning first and then sends the POST without a key. *)
Lemma translation_section_deepl_posts (inp : inputs)
    (client auth_key : option string) (code : string) (s : session) :
  truthy (default None (s !! "analysis_result")) = true ->
  s !! "DEEPL_API_KEY" = Some auth_key ->
  translation_provider inp = "DeepL" ->
  String.eqb (target inp) "English" = false ->
  LANG_NAME_TO_CODE !! target inp = Some code ->
  translate_button inp = true ->
  exists evs : list event,
    (translation_section W inp client s).2
    = [UI (Subheader "🌐 Translate Markdown");
       UI (Selectbox "Target language:" langs)]
      ++ (if truthy auth_key then []
          else [UI (Warning "Add DeepL key for translation.")])
      ++ [UI (Button "Translate Markdown");
          UI (Spinner "Translating via DeepL …");
          Net (HttpPost
                 (deepl_request auth_key (default None (s !! "analysis_result"))
                    code))]
      ++ evs.
Proof.
  intros Hmd Hkey Hprovider Htarget Hcode Hbutton.
  destruct (s !! "analysis_result") as [src_md|] eqn:Hsrc; [|done].
  destruct (translate_deepl_sends W (target inp) code src_md auth_key s
              Hcode Hkey) as (evs & Hsend & _).
  exists evs.
  unfold translation_section, credential_warnings, translate.
  rewrite Hprovider, Hbutton. script_unfold.
  rewrite Hsrc. simpl in Hmd |- *. rewrite Hmd, Htarget. simpl.
  rewrite Hkey.
  destruct (truthy auth_key); simpl; by rewrite Hsrc, Hsend.
Qed.

End Shell.

(** * Concrete runs *)

(** The scenario of the specification: two pages, ["Hello"] and nothing. *)
Example two_pages_markdown :
  (pdf_to_markdown demo_world [Byte.x25; Byte.x50] ∅).1.1
  = Val ("## Page 1" +:+ nl +:+ nl +:+ "Hello" +:+ nl +:+ nl
         +:+ "## Page 2" +:+ nl +:+ nl).
Proof. vm_compute. reflexivity. Qed.

Lemma pdf_to_markdown_valid_witness :
  pdf_to_markdown demo_world [Byte.x25; Byte.x50] ∅
  = (Val ("## Page 1" +:+ nl +:+ nl +:+ "Hello" +:+ nl +:+ nl
          +:+ "## Page 2" +:+ nl +:+ nl), ∅, []).
Proof.
  refine (eq_trans
            (proj1 (pdf_to_markdown_valid demo_world [Byte.x25; Byte.x50]
                      [inr (Some (" Hello" +:+ nl)); inr None]
                      [Some (" Hello" +:+ nl); None] ∅ _ _ _)) _).
  - reflexivity.
  - reflexivity.
  - repeat constructor.
  - vm_compute. reflexivity.
Defined.

Lemma pdf_to_markdown_failure_witness :
  pdf_to_markdown (demo false) [Byte.x25] ∅
  = (Val "", ∅, [UI (Error (import_failed_msg (demo false)))])
  /\ pdf_to_markdown demo_world [] ∅
     = (Val "", ∅,
        [UI (Error (parsing_failed_msg demo_world
                      (LibraryError "No /Root object! - Is this really a PDF?")))])
  /\ exists ex : exn,
       pdf_to_markdown demo_world [Byte.x01] ∅
       = (Val "", ∅, [UI (Error (parsing_failed_msg demo_world ex))]).
Proof.
  split; [|split].
  - apply (pdf_to_markdown_failure (demo false) [Byte.x25] ∅). reflexivity.
  - apply (pdf_to_markdown_failure demo_world [] ∅); reflexivity.
  - apply (proj1 (proj2 (proj2
             (pdf_to_markdown_failure demo_world [Byte.x01] ∅)))
             [inr (Some "Hello"); inl (LibraryError "Unexpected EOF")]).
    + reflexivity.
    + reflexivity.
    + apply Exists_cons_tl, Exists_cons_hd. by eexists.
Defined.

Lemma translate_deepl_unsupported_witness :
  translate_deepl demo_world "Klingon" (Some hello_md) converted
  = (Val tt, converted,
     [UI (Error (deepl_request_failed_msg demo_world
                   (KeyError (IStr "Klingon"))))])
  /\ network_calls
       (translate_deepl demo_world "Klingon" (Some hello_md) converted).2 = [].
Proof.
  apply (translate_deepl_unsupported demo_world "Klingon" (Some hello_md)
           None converted).
  - vm_compute. reflexivity.
  - vm_compute. reflexivity.
Defined.

Example unsupported_message :
  deepl_request_failed_msg demo_world (KeyError (IStr "Klingon"))
  = "DeepL request failed:" +:+ nl +:+ nl +:+ "```" +:+ nl
    +:+ "'Klingon'" +:+ nl +:+ "```".
Proof. vm_compute. reflexivity. Qed.

Lemma translate_deepl_outcomes_witness :
  translate_deepl demo_world "French" (Some hello_md)
    (converted_with_key "secret")
  = (Val tt, converted_with_key "secret",
     [Net (HttpPost {| url := "https://api-free.deepl.com/v2/translate";
                       data_auth_key := Some "secret";
                       data_text := Some hello_md;
                       data_target_lang := "FR";
                       timeout := 30 |});
      UI (Markdown (PStr "## 🌐 Translated (French)"));
      UI (Markdown (PStr "Bonjour"))])
  /\ translate_deepl demo_world "French" (Some hello_md) converted
     = (Val tt, converted,
        [Net (HttpPost {| url := "https://api-free.deepl.com/v2/translate";
                          data_auth_key := None;
                          data_text := Some hello_md;
                          data_target_lang := "FR";
                          timeout := 30 |});
         UI (Error "DeepL error 403: Forbidden")])
  /\ translate_deepl demo_world "French" (Some hello_md)
       (converted_with_key "offline")
     = (Val tt, converted_with_key "offline",
        [Net (HttpPost {| url := "https://api-free.deepl.com/v2/translate";
                          data_auth_key := Some "offline";
                          data_text := Some hello_md;
                          data_target_lang := "FR";
                          timeout := 30 |});
         UI (Error ("DeepL request failed:" +:+ nl +:+ nl +:+ "```" +:+ nl
                    +:+ "Connection timed out" +:+ nl +:+ "```"))]).
Proof.
  split; [|split].
  - refine (eq_trans
              (proj1 (translate_deepl_outcomes demo_world "French" "FR"
                        (Some hello_md) (Some "secret")
                        (converted_with_key "secret") _ _)
                 bonjour "Bonjour" _ _ _) _).
    + vm_compute. reflexivity.
    + vm_compute. reflexivity.
    + reflexivity.
    + reflexivity.
    + reflexivity.
    + vm_compute. reflexivity.
  - refine (eq_trans
              (proj1 (proj1 (proj2 (proj2
                 (translate_deepl_outcomes demo_world "French" "FR"
                    (Some hello_md) None converted _ _)))
                 forbidden _ _)) _).
    + vm_compute. reflexivity.
    + vm_compute. reflexivity.
    + reflexivity.
    + discriminate.
    + vm_compute. reflexivity.
  - refine (eq_trans
              (proj1 (proj2 (proj2 (proj2
                 (translate_deepl_outcomes demo_world "French" "FR"
                    (Some hello_md) (Some "offline")
                    (converted_with_key "offline") _ _))))
                 (LibraryError "Connection timed out") _) _).
    + vm_compute. reflexivity.
    + vm_compute. reflexivity.
    + reflexivity.
    + vm_compute. reflexivity.
Defined.


Lemma translation_english_noop_witness :
  translation_section demo_world
    (widgets "DeepL" None false "English" true) None converted
  = (Val tt, converted,
     [UI (Subheader "🌐 Translate Markdown");
      UI (Selectbox "Target language:" langs);
      UI (Info "Already in English — no translation needed.")])
  /\ network_calls
       (translation_section demo_world
          (widgets "DeepL" None false "English" true) None converted).2 = [].
Proof.
  apply (translation_english_noop demo_world
           (widgets "DeepL" None false "English" true) None converted).
  - vm_compute. reflexivity.
  - reflexivity.
Defined.

Lemma failures_preserve_results_witness :
  (translation_section demo_world
     (widgets "DeepL" None false "French" true) None converted).1.2 = converted
  /\ (main demo_world (widgets "DeepL" None false "French" true) converted).1.2
     !! "analysis_result" = converted !! "analysis_result"
  /\ (convert demo_world (widgets "DeepL" (Some []) true "French" false)
        (converted_with_key "secret")).1.2 !! "DEEPL_API_KEY"
     = converted_with_key "secret" !! "DEEPL_API_KEY".
Proof.
  split; [|split].
  - apply (failures_preserve_results demo_world
             (widgets "DeepL" None false "French" true) None converted).
  - apply (failures_preserve_results demo_world
             (widgets "DeepL" None false "French" true) None converted).
    reflexivity.
  - apply (failures_preserve_results demo_world
             (widgets "DeepL" (Some []) true "French" false) None
             (converted_with_key "secret")).
Defined.

Lemma empty_pdf_like_failure_witness :
  pdf_to_markdown demo_world [Byte.x00] converted = (Val "", converted, [])
  /\ (convert demo_world (widgets "DeepL" (Some [Byte.x00]) true "French" true)
        converted).1.2
     = <["analysis_result" := Some ""]> converted.
Proof.
  pose proof (empty_pdf_like_failure demo_world
                (widgets "DeepL" (Some [Byte.x00]) true "French" true)
                [Byte.x00] converted eq_refl eq_refl eq_refl eq_refl)
    as (Hreturn & Hstored & _).
  split; [exact Hreturn|exact Hstored].
Defined.

(** C2, at an input where it fails.  The session holds a converted document
    and no DeepL key; the provider is DeepL, the target French, and the
    translate button is pressed.  The section shows the warning about the
    missing key, and then sends the POST all the same, without a key. *)
Theorem translate_without_deepl_key :
  converted !! "DEEPL_API_KEY" = Some None
  /\ translation_section demo_world
       (widgets "DeepL" None false "French" true) None converted
     = (Val tt, converted,
        [UI (Subheader "🌐 Translate Markdown");
         UI (Selectbox "Target language:" langs);
         UI (Warning "Add DeepL key for translation.");
         UI (Button "Translate Markdown");
         UI (Spinner "Translating via DeepL …");
         Net (HttpPost (deepl_request None (Some hello_md) "FR"));
         UI (Error "DeepL error 403: Forbidden")])
  /\ network_calls
       (main demo_world (widgets "DeepL" None false "French" true) converted).2
     = [HttpPost (deepl_request None (Some hello_md) "FR")].
Proof.
  split; [|split].
  - vm_compute. reflexivity.
  - vm_compute. reflexivity.
  - vm_compute. reflexivity.
Qed.

(** The same on the LLM path: without a client the section shows the
    warning, and the pressed button then runs into [None.chat]; nothing is
    sent, and the exception is shown as a translation error. *)
Example translate_without_openai_key :
  translation_section demo_world
    (widgets "o3-mini" None false "French" true) None converted
  = (Val tt, converted,
     [UI (Subheader "🌐 Translate Markdown");
      UI (Selectbox "Target language:" langs);
      UI (Warning "Add OpenAI key to use o3-mini translation.");
      UI (Button "Translate Markdown");
      UI (Spinner "Translating via o3-mini …");
      UI (Error (o3mini_error_msg demo_world (AttributeError "chat")))]).
Proof. vm_compute. reflexivity. Qed.

(** * Whole runs *)

(** ** Outbound calls *)

Lemma network_calls_app (evs1 evs2 : list event) :
  network_calls (evs1 ++ evs2) = network_calls evs1 ++ network_calls evs2.
Proof. apply omap_app. Qed.

Lemma network_calls_cons_ui (e : element) (evs : list event) :
  network_calls (UI e :: evs) = network_calls evs.
Proof. reflexivity. Qed.

Lemma network_calls_ui (es : list element) : network_calls (map UI es) = [].
Proof. by induction es. Qed.

Lemma shown_ui (es : list element) : shown (map UI es) = es.
Proof. induction es; simpl; by f_equal. Qed.

Section Silent.

Lemma silent_ret {A} (a : A) : silent (mret a).
Proof. by intros s. Qed.

Lemma silent_bind {A B} (m : script A) (f : A -> script B) :
  silent m -> (forall a, silent (f a)) -> silent (m ≫= f).
Proof.
  intros Hm Hf s. specialize (Hm s).
  unfold mbind, script_mbind, script_bind.
  destruct (m s) as [[[a|ex|] s1] ev1]; simpl in *; try done.
  specialize (Hf a s1). destruct (f a s1) as [[o s2] ev2]; simpl in *.
  by rewrite network_calls_app, Hm, Hf.
Qed.

Lemma silent_try_except {A} (body : script A) (handler : exn -> script A) :
  silent body -> (forall ex, silent (handler ex)) ->
  silent (try_except body handler).
Proof.
  intros Hm Hf s. specialize (Hm s). unfold try_except.
  destruct (body s) as [[[a|ex|] s1] ev1]; simpl in *; try done.
  specialize (Hf ex s1). destruct (handler ex s1) as [[o s2] ev2]; simpl in *.
  by rewrite network_calls_app, Hm, Hf.
Qed.

Lemma silent_raise {A} (ex : exn) : silent (raise (A := A) ex).
Proof. by intros s. Qed.

Lemma silent_rerun {A} : silent (st_rerun (A := A)).
Proof. by intros s. Qed.

Lemma silent_st (e : element) : silent (st e).
Proof. by intros s. Qed.

Lemma silent_lift {A} (r : exn + A) : silent (lift r).
Proof. by destruct r. Qed.

Lemma silent_when (c : bool) (body : script unit) :
  silent body -> silent (when c body).
Proof. by destruct c. Qed.

Lemma silent_getattr (k : string) : silent (getattr k).
Proof. intros s. unfold getattr. by destruct (s !! k). Qed.

Lemma silent_getitem (k : string) : silent (getitem k).
Proof. intros s. unfold getitem. by destruct (s !! k). Qed.

Lemma silent_get (k : string) : silent (get k).
Proof. by intros s. Qed.

Lemma silent_assign (k : string) (v : option string) : silent (assign k v).
Proof. by intros s. Qed.

Lemma silent_setdefault (k : string) (v : option string) :
  silent (setdefault k v).
Proof. intros s. unfold setdefault. by destruct (s !! k). Qed.

End Silent.

Ltac silent_step :=
  first
    [ match goal with H : context [silent] |- silent _ => apply H end
    | apply silent_bind | apply silent_try_except | apply silent_ret
    | apply silent_raise | apply silent_rerun | apply silent_st
    | apply silent_lift | apply silent_when
    | apply silent_getattr | apply silent_getitem | apply silent_get
    | apply silent_assign | apply silent_setdefault
    | match goal with
      | |- silent (if ?c then _ else _) => destruct c
      | |- silent (match ?x with _ => _ end) => destruct x
      | |- forall _, _ => intro
      end ].

Ltac silent_auto := repeat silent_step.

(** ** Exceptions *)

Lemma has_keys_insert (k : string) (v : option string) (s : session) :
  has_keys s -> has_keys (<[k := v]> s).
Proof.
  intros [Ho Hd]. split.
  - destruct (decide (k = "OPENAI_API_KEY")) as [->|Hne].
    + by rewrite lookup_insert_eq.
    + by rewrite lookup_insert_ne.
  - destruct (decide (k = "DEEPL_API_KEY")) as [->|Hne].
    + by rewrite lookup_insert_eq.
    + by rewrite lookup_insert_ne.
Qed.

Lemma has_keys_init (s : session) : has_keys (init s).
Proof.
  unfold init, set_default, has_keys.
  destruct (s !! "OPENAI_API_KEY") eqn:Ho.
  - destruct (s !! "DEEPL_API_KEY") eqn:Hd.
    + by rewrite Ho, Hd.
    + by rewrite lookup_insert_ne, Ho, lookup_insert_eq.
  - rewrite lookup_insert_ne by done.
    destruct (s !! "DEEPL_API_KEY") eqn:Hd.
    + by rewrite lookup_insert_eq, lookup_insert_ne, Hd.
    + rewrite lookup_insert_eq, lookup_insert_ne by done.
      by rewrite lookup_insert_eq.
Qed.

Section Safe.

Lemma safe_ret {A} (a : A) : safe (mret a).
Proof. by intros s Hs. Qed.

Lemma safe_bind {A B} (m : script A) (f : A -> script B) :
  safe m -> (forall a, safe (f a)) -> safe (m ≫= f).
Proof.
  intros Hm Hf s Hs. destruct (Hm s Hs) as [Hs1 Hex].
  unfold mbind, script_mbind, script_bind.
  destruct (m s) as [[[a|ex|] s1] ev1]; simpl in *.
  - destruct (Hf a s1 Hs1) as [Hs2 Hex2].
    by destruct (f a s1) as [[o s2] ev2].
  - by destruct (Hex ex).
  - done.
Qed.

Lemma safe_rerun {A} : safe (st_rerun (A := A)).
Proof. by intros s Hs. Qed.

Lemma safe_st (e : element) : safe (st e).
Proof. by intros s Hs. Qed.

Lemma safe_when (c : bool) (body : script unit) :
  safe body -> safe (when c body).
Proof. by destruct c. Qed.

Lemma safe_get (k : string) : safe (get k).
Proof. by intros s Hs. Qed.

Lemma safe_getattr_openai : safe (getattr "OPENAI_API_KEY").
Proof.
  intros s Hs. unfold getattr. destruct Hs as [[v Hv] Hd]. rewrite Hv.
  repeat split; [by exists v|done..].
Qed.

Lemma safe_getattr_deepl : safe (getattr "DEEPL_API_KEY").
Proof.
  intros s Hs. unfold getattr. destruct Hs as [Ho [v Hv]]. rewrite Hv.
  repeat split; [done|by exists v|done].
Qed.

Lemma safe_assign (k : string) (v : option string) : safe (assign k v).
Proof. intros s Hs. split; [by apply has_keys_insert|done]. Qed.

End Safe.

Ltac safe_step :=
  first
    [ match goal with H : context [safe] |- safe _ => apply H end
    | apply safe_bind | apply safe_ret | apply safe_rerun | apply safe_st
    | apply safe_when | apply safe_get
    | apply safe_getattr_openai | apply safe_getattr_deepl
    | apply safe_assign
    | match goal with
      | |- safe (if ?c then _ else _) => destruct c
      | |- safe (match ?x with _ => _ end) => destruct x
      | |- forall _, _ => intro
      end ].

Ltac safe_auto := repeat safe_step.

(** ** The two translation paths, case by case *)

Section Runs.

Context (W : World).

(** What the DeepL path shows is either the header with the translation or
    one error; it sends nothing, or the one POST for the stored key and the
    code of the target. *)
Lemma translate_deepl_run (target : string) (src_md : option string)
    (s : session) :
  (exists ex : exn,
      translate_deepl W target src_md s
      = (Val tt, s, [UI (Error (deepl_request_failed_msg W ex))]))
  \/ (exists (key : option string) (code : string) (es : list element),
        s !! "DEEPL_API_KEY" = Some key
        /\ LANG_NAME_TO_CODE !! target = Some code
        /\ translate_deepl W target src_md s
           = (Val tt, s,
              Net (HttpPost (deepl_request key src_md code)) :: map UI es)
        /\ ((exists trans : pyval,
                es = [Markdown (translated_header target); Markdown trans])
            \/ (exists msg : string, es = [Error msg]))).
Proof.
  unfold translate_deepl, lang_code, post. script_unfold.
  destruct (s !! "DEEPL_API_KEY") as [key|] eqn:Hkey; [|left; by eexists].
  destruct (LANG_NAME_TO_CODE !! target) as [code|] eqn:Hcode;
    [|left; by eexists].
  right. exists key, code. fold (deepl_request key src_md code).
  destruct (requests_post W _) as [ex|resp].
  { eexists [_]. repeat split. right. by eexists. }
  destruct (status_code resp =? 200).
  2:{ eexists [_]. repeat split. right. by eexists. }
  destruct (json resp) as [ex|body].
  { eexists [_]. repeat split. right. by eexists. }
  destruct (getitem_str body "translations") as [ex|translations].
  { eexists [_]. repeat split. right. by eexists. }
  destruct (getitem_0 translations) as [ex|first].
  { eexists [_]. repeat split. right. by eexists. }
  destruct (getitem_str first "text") as [ex|trans].
  { eexists [_]. repeat split. right. by eexists. }
  eexists [_; _]. repeat split. left. by eexists.
Qed.

Lemma translate_o3mini_run (client : option string) (target : string)
    (src_md : option string) (s : session) :
  (client = None
   /\ translate_o3mini W client target src_md s
      = (Val tt, s, [UI (Error (o3mini_error_msg W (AttributeError "chat")))]))
  \/ (exists (api_key : string) (es : list element),
        client = Some api_key
        /\ translate_o3mini W client target src_md s
           = (Val tt, s,
              Net (ChatCreate api_key (o3mini_request target src_md))
              :: map UI es)
        /\ ((exists trans : pyval,
                es = [Markdown (translated_header target); Markdown trans])
            \/ (exists msg : string, es = [Error msg]))).
Proof.
  destruct client as [api_key|]; [right|by left].
  exists api_key.
  unfold translate_o3mini, create. script_unfold.
  rewrite <- o3mini_request_system_msg.
  destruct (chat_completions_create W api_key _) as [ex|comp].
  { eexists [_]. repeat split. right. by eexists. }
  destruct (choices comp) as [|c rest]; simpl.
  { eexists [_]. repeat split. right. by eexists. }
  destruct (message_content c) as [content|]; simpl.
  - eexists [_; _]. repeat split. left. by eexists.
  - eexists [_]. repeat split. right. by eexists.
Qed.

(** The translation section, from a session with the DeepL key entry:
    it ends normally, leaves the session alone, and makes no call or the
    one expected call. *)
Lemma translation_section_run (inp : inputs) (client : option string)
    (s : session) :
  is_Some (s !! "DEEPL_API_KEY") ->
  exists evs : list event,
    translation_section W inp client s = (Val tt, s, evs)
    /\ (network_calls evs = []
        \/ (exists c : net_call,
              network_calls evs = [c]
              /\ expected_call inp client s c
              /\ translate_button inp = true
              /\ target inp <> "English"
              /\ truthy (default None (s !! "analysis_result")) = true)).
Proof.
  intros [key Hkey].
  unfold translation_section, credential_warnings, translate.
  script_unfold.
  destruct (s !! "analysis_result") as [src_md|] eqn:Hsrc; simpl;
    [|eexists; split; [done|by left]].
  destruct (truthy src_md) eqn:Hmd; simpl;
    [|eexists; split; [done|by left]].
  destruct (String.eqb_spec (target inp) "English") as [|Htarget];
    [eexists; split; [done|by left]|].
  destruct (translate_button inp) eqn:Hbutton.
  2:{ destruct (String.eqb (translation_provider inp) "o3-mini"
                && bool_decide (client = None));
      destruct (String.eqb (translation_provider inp) "DeepL"); simpl;
        rewrite ?Hkey; simpl; try destruct (truthy key); simpl;
        (eexists; split; [done|by left]). }
  assert (Htr : exists evs,
             (if String.eqb (translation_provider inp) "DeepL"
              then translate_deepl W (target inp) src_md
              else translate_o3mini W client (target inp) src_md) s
             = (Val tt, s, evs)
             /\ (network_calls evs = []
                 \/ exists c, network_calls evs = [c]
                              /\ expected_call inp client s c)).
  { destruct (String.eqb_spec (translation_provider inp) "DeepL")
      as [Hprov|Hprov].
    - destruct (translate_deepl_run (target inp) src_md s)
        as [[ex ->]|(k & code & es & Hk & Hcode & -> & _)].
      + eexists. split; [done|by left].
      + eexists. split; [done|]. right. eexists. simpl.
        rewrite network_calls_ui. split; [done|]. simpl.
        split; [done|]. exists k, code. by rewrite Hsrc.
    - destruct (translate_o3mini_run client (target inp) src_md s)
        as [[_ ->]|(k & es & Hclient & -> & _)].
      + eexists. split; [done|by left].
      + eexists. split; [done|]. right. eexists. simpl.
        rewrite network_calls_ui. split; [done|]. simpl.
        by rewrite Hsrc. }
  destruct Htr as (evs & Hrun & Hcalls).
  destruct (String.eqb (translation_provider inp) "o3-mini"
            && bool_decide (client = None));
    destruct (String.eqb (translation_provider inp) "DeepL"); simpl;
    rewrite ?Hkey; simpl; try destruct (truthy key); simpl;
    rewrite ?Hsrc; simpl; rewrite Hrun;
    (eexists; split; [reflexivity|]);
    rewrite !network_calls_cons_ui;
    (destruct Hcalls as [->|(c & -> & Hc)]; [by left|right]);
    by exists c.
Qed.

(** ** A run, piece by piece *)

Lemma setdefault_run (k : string) (v : option string) (s : session) :
  setdefault k v s = (Val tt, set_default k v s, []).
Proof. unfold setdefault, set_default. by destruct (s !! k). Qed.

Lemma main_init (inp : inputs) (s : session) :
  main W inp s = after_init W inp (init s).
Proof.
  unfold main, init. script_unfold. fold (setdefault "OPENAI_API_KEY" None s).
  rewrite setdefault_run.
  fold (setdefault "DEEPL_API_KEY" None
          (set_default "OPENAI_API_KEY" None s)).
  rewrite setdefault_run. simpl.
  unfold after_init. script_unfold.
  destruct (sidebar inp _) as [[[[]|ex|] s1] ev1]; simpl; try done.
  destruct (openai_client W s1) as [[[client|ex|] s2] ev2]; simpl; try done.
  destruct (convert W inp s2) as [[[[]|ex|] s3] ev3]; simpl; try done.
  by destruct (translation_section W inp client s3) as [[o s4] ev4].
Qed.

Lemma sidebar_safe (inp : inputs) : safe (sidebar inp).
Proof. unfold sidebar, sidebar_openai, sidebar_deepl. safe_auto. Qed.

Lemma sidebar_silent (inp : inputs) : silent (sidebar inp).
Proof. unfold sidebar, sidebar_openai, sidebar_deepl. silent_auto. Qed.

Lemma pdf_to_markdown_silent (pdf_bytes : list Byte.byte) :
  silent (pdf_to_markdown W pdf_bytes).
Proof. unfold pdf_to_markdown. silent_auto. Qed.

Lemma convert_silent (inp : inputs) : silent (convert W inp).
Proof.
  pose proof pdf_to_markdown_silent as Hpdf. unfold convert. silent_auto.
Qed.

Lemma convert_has_keys (inp : inputs) (s : session) :
  has_keys s -> has_keys (convert W inp s).1.2.
Proof.
  intros [Ho Hd]. split.
  - by rewrite (convert_respects W "OPENAI_API_KEY" inp).
  - by rewrite (convert_respects W "DEEPL_API_KEY" inp).
Qed.

Lemma openai_client_run (s : session) :
  is_Some (s !! "OPENAI_API_KEY") ->
  openai_client W s = (Val (client_of W s), s, []).
Proof.
  intros [key Hkey]. unfold openai_client, client_of.
  destruct (_OPENAI_AVAILABLE W); [|done].
  script_unfold. by rewrite Hkey.
Qed.

(** From a session with both key entries, the script after its first two
    lines either stops in the sidebar, or goes through the sidebar, the
    conversion and the translation section, in that order. *)
Lemma after_init_run (inp : inputs) (s : session) :
  has_keys s ->
  (exists (s1 : session) (ev1 : list event),
      sidebar inp s = (Rerun, s1, ev1)
      /\ after_init W inp s = (Rerun, s1, ev1))
  \/ (exists (s1 s2 : session) (ev1 ev2 ev3 : list event),
        sidebar inp s = (Val tt, s1, ev1)
        /\ has_keys s1
        /\ convert W inp s1 = (Val tt, s2, ev2)
        /\ has_keys s2
        /\ translation_section W inp (client_of W s1) s2 = (Val tt, s2, ev3)
        /\ after_init W inp s
           = (Val tt, s2, before_translation ev1 ev2 ++ ev3)).
Proof.
  intros Hs.
  destruct (sidebar_safe inp s Hs) as [Hs1 Hex].
  destruct (sidebar inp s) as [[o s1] ev1] eqn:Hsb. simpl in *.
  destruct o as [[]|ex|]; [right|by destruct (Hex ex)|left].
  - destruct (convert_returns W inp s1) as (s2 & ev2 & Hconvert).
    pose proof (convert_has_keys inp s1 Hs1) as Hs2.
    rewrite Hconvert in Hs2. simpl in Hs2.
    destruct (translation_section_run inp (client_of W s1) s2 (proj2 Hs2))
      as (ev3 & Htranslation & _).
    exists s1, s2, ev1, ev2, ev3. do 5 (split; [done|]).
    unfold after_init. script_unfold. rewrite Hsb.
    rewrite (openai_client_run s1 (proj1 Hs1)).
    rewrite Hconvert, Htranslation. unfold before_translation.
    simpl. f_equal. rewrite <- (app_assoc ev1). f_equal. simpl.
    do 6 f_equal. by rewrite <- app_assoc.
  - exists s1, ev1. split; [done|].
    unfold after_init. script_unfold. by rewrite Hsb.
Qed.

Lemma client_of_convert (inp : inputs) (s : session) :
  client_of W (convert W inp s).1.2 = client_of W s.
Proof.
  pose proof (convert_respects W "OPENAI_API_KEY" inp ltac:(done) s) as Hkey.
  unfold same_at in Hkey. unfold client_of. simpl. by rewrite !Hkey.
Qed.

(** The calls of a run: none, or the one expected call of the translation
    section, for the session that the run leaves. *)
Lemma main_run_calls (inp : inputs) (s : session) :
  network_calls (main W inp s).2 = []
  \/ (exists c : net_call,
        network_calls (main W inp s).2 = [c]
        /\ expected_call inp (client_of W (main W inp s).1.2)
             (main W inp s).1.2 c
        /\ translate_button inp = true
        /\ target inp <> "English"
        /\ truthy (default None ((main W inp s).1.2 !! "analysis_result"))
           = true).
Proof.
  rewrite main_init.
  destruct (after_init_run inp (init s) (has_keys_init s))
    as [(s1 & ev1 & Hsb & ->)
       |(s1 & s2 & ev1 & ev2 & ev3 & Hsb & Hs1 & Hconvert & Hs2 & Htr & ->)].
  - left. simpl. pose proof (sidebar_silent inp (init s)) as Hsilent.
    by rewrite Hsb in Hsilent.
  - simpl. rewrite network_calls_app.
    assert (Hbefore : network_calls (before_translation ev1 ev2) = []).
    { unfold before_translation. rewrite !network_calls_app.
      pose proof (sidebar_silent inp (init s)) as H1. rewrite Hsb in H1.
      pose proof (convert_silent inp s1) as H2. rewrite Hconvert in H2.
      simpl in H1, H2. by rewrite H1, H2. }
    rewrite Hbefore. simpl.
    destruct (translation_section_run inp (client_of W s1) s2 (proj2 Hs2))
      as (evs & Heq & Hcalls).
    rewrite Htr in Heq. injection Heq as <-.
    destruct Hcalls as [->|(c & -> & Hc)]; [by left|right].
    exists c. split; [done|].
    pose proof (client_of_convert inp s1) as Hclient.
    rewrite Hconvert in Hclient. simpl in Hclient. by rewrite Hclient.
Qed.

(** X2.  A run makes at most one outbound call, and none unless the
    translate button is pressed, the target is not English and the session
    it leaves holds a Markdown document. *)
Theorem main_calls_at_most_once (inp : inputs) (s : session) :
  (length (network_calls (main W inp s).2) <= 1)%nat
  /\ (translate_button inp = false -> network_calls (main W inp s).2 = [])
  /\ (target inp = "English" -> network_calls (main W inp s).2 = [])
  /\ (truthy (default None ((main W inp s).1.2 !! "analysis_result")) = false ->
      network_calls (main W inp s).2 = []).
Proof.
  destruct (main_run_calls inp s)
    as [Hnone|(c & Hone & _ & Hbutton & Htarget & Hmd)].
  - rewrite Hnone. simpl. repeat split; (lia || done).
  - rewrite Hone. simpl. repeat split; try lia; intros Hno; congruence.
Qed.

(** X3.  What a run sends is determined by the session it leaves.  A POST
    goes out only with the DeepL provider, to the DeepL address, with timeout
    30, the stored key, the stored Markdown and the code of the target.  A
    chat request goes out only with the other provider, when [openai] was
    imported, with the stored, non-empty OpenAI key and the stored
    Markdown. *)
Theorem main_call_contents (inp : inputs) (s : session) (c : net_call) :
  c ∈ network_calls (main W inp s).2 ->
  let s' := (main W inp s).1.2 in
  match c with
  | HttpPost r =>
      translation_provider inp = "DeepL"
      /\ exists code : string,
          LANG_NAME_TO_CODE !! target inp = Some code
          /\ r = {| url := "https://api-free.deepl.com/v2/translate";
                    data_auth_key := default None (s' !! "DEEPL_API_KEY");
                    data_text := default None (s' !! "analysis_result");
                    data_target_lang := code;
                    timeout := 30 |}
  | ChatCreate api_key r =>
      translation_provider inp <> "DeepL"
      /\ _OPENAI_AVAILABLE W = true
      /\ s' !! "OPENAI_API_KEY" = Some (Some api_key)
      /\ api_key <> ""
      /\ r = o3mini_request (target inp)
               (default None (s' !! "analysis_result"))
  end.
Proof.
  intros Hc s'.
  destruct (main_run_calls inp s) as [Hnone|(c' & Hone & Hexp & _)].
  { rewrite Hnone in Hc. by apply elem_of_nil in Hc. }
  rewrite Hone in Hc. apply list_elem_of_singleton in Hc as ->.
  fold s' in Hexp. destruct c' as [r|api_key r]; simpl in Hexp.
  - destruct Hexp as (Hprov & key & code & Hkey & Hcode & ->).
    split; [done|]. exists code. split; [done|]. by rewrite Hkey.
  - destruct Hexp as (Hprov & Hclient & ->).
    split; [done|]. unfold client_of in Hclient.
    destruct (_OPENAI_AVAILABLE W); [|done]. split; [done|].
    destruct (s' !! "OPENAI_API_KEY") as [[[|a k]|]|] eqn:Hkey;
      simpl in Hclient; try done.
    injection Hclient as <-. by repeat split.
Qed.

(** X4.  Each translation path ends normally and leaves the session as it
    was, and what it shows is all or nothing: the header followed by the
    translation, or one error message.  It never shows the header alone,
    and never an error beside a translation. *)
Theorem translation_all_or_nothing (client : option string) (target : string)
    (src_md : option string) (s : session) :
  (exists evs : list event,
      translate_deepl W target src_md s = (Val tt, s, evs)
      /\ ((exists trans : pyval,
              shown evs = [Markdown (translated_header target); Markdown trans])
          \/ (exists msg : string, shown evs = [Error msg])))
  /\ (exists evs : list event,
        translate_o3mini W client target src_md s = (Val tt, s, evs)
        /\ ((exists trans : pyval,
                shown evs
                = [Markdown (translated_header target); Markdown trans])
            \/ (exists msg : string, shown evs = [Error msg]))).
Proof.
  split.
  - destruct (translate_deepl_run target src_md s)
      as [[ex ->]|(key & code & es & _ & _ & -> & Hes)].
    + eexists. split; [done|]. right. by eexists.
    + eexists. split; [done|]. simpl. fold (shown (map UI es)).
      by rewrite shown_ui.
  - destruct (translate_o3mini_run client target src_md s)
      as [[_ ->]|(api_key & es & _ & -> & Hes)].
    + eexists. split; [done|]. right. by eexists.
    + eexists. split; [done|]. simpl. fold (shown (map UI es)).
      by rewrite shown_ui.
Qed.

End Runs.

(** ** Conversion *)

#[global] Instance grows_preorder : PreOrder grows.
Proof.
  split.
  - intros s. unfold grows. set_solver.
  - intros s1 s2 s3 H12 H23. unfold grows in *. set_solver.
Qed.

Lemma append_nil_r (a : string) : a +:+ "" = a.
Proof.
  induction a as [|c a IH]; [done|].
  change (String c (a +:+ "") = String c a). by rewrite IH.
Qed.

Lemma append_assoc (a b c : string) : (a +:+ b) +:+ c = a +:+ (b +:+ c).
Proof.
  induction a as [|x a IH]; [done|].
  change (String x ((a +:+ b) +:+ c) = String x (a +:+ (b +:+ c))).
  by rewrite IH.
Qed.

Lemma join_cons (sep x : string) (xs : list string) :
  exists rest : string, PyStr.join sep (x :: xs) = x +:+ rest.
Proof.
  destruct xs as [|y ys].
  - exists "". by rewrite append_nil_r.
  - by eexists.
Qed.

Section Conversion.

Context (W : World).

Lemma pdf_to_markdown_blocks (pdf_bytes : list Byte.byte)
    (pages : list (page W)) (texts : list (option string)) (s : session) :
  _PDFPLUMBER_AVAILABLE W = true ->
  pdfplumber_open W pdf_bytes = inr pages ->
  Forall2 (fun p t => extract_text W p = inr t) pages texts ->
  pdf_to_markdown W pdf_bytes s
  = (Val (PyStr.join (nl +:+ nl) (page_blocks texts)), s, []).
Proof.
  intros Havail Hopen Hpages.
  unfold pdf_to_markdown. rewrite Havail. simpl.
  script_unfold. rewrite Hopen.
  rewrite (extract_pages_blocks W pages texts Hpages 1 []). simpl.
  do 4 f_equal. apply imap_ext. intros k x _. simpl. f_equal. lia.
Qed.

(** The loop gives up at the first page whose extraction raises, with the
    exception of that page. *)
Lemma extract_pages_first_failure (good : list (page W))
    (texts : list (option string)) (p : page W) (rest : list (page W))
    (ex : exn) :
  Forall2 (fun p t => extract_text W p = inr t) good texts ->
  extract_text W p = inl ex ->
  forall (i : Z) (pages_md : list string),
    extract_pages W i (good ++ p :: rest) pages_md = inl ex.
Proof.
  intros Hgood Hp.
  induction Hgood as [|q t good texts Hq _ IH]; intros i pages_md; simpl.
  - by rewrite Hp.
  - by rewrite Hq, IH.
Qed.

(** X5.  A conversion that fails, because [pdfplumber] is missing or because
    the bytes do not open, stores the empty string as the Markdown of the
    session, whatever was stored before: a document converted earlier is
    gone, and the translation section asks again for a conversion. *)
Theorem failed_conversion_discards_markdown (inp : inputs)
    (pdf_bytes : list Byte.byte) (s : session) :
  analyze_button inp = true ->
  uploaded_pdf inp = Some pdf_bytes ->
  _PDFPLUMBER_AVAILABLE W = false
  \/ (exists ex : exn, pdfplumber_open W pdf_bytes = inl ex) ->
  (convert W inp s).1.2 = <["analysis_result" := Some ""]> s
  /\ forall (inp' : inputs) (client : option string),
      translation_section W inp' client (convert W inp s).1.2
      = (Val tt, (convert W inp s).1.2,
         [UI (Subheader "🌐 Translate Markdown");
          UI (Info "Run analysis/conversion first.")]).
Proof.
  intros Hbutton Hfile Hfails.
  assert (Hrun : exists evs, pdf_to_markdown W pdf_bytes s = (Val "", s, evs)).
  { destruct (_PDFPLUMBER_AVAILABLE W) eqn:Havail.
    - destruct Hfails as [|[ex Hopen]]; [done|]. eexists.
      by apply pdf_to_markdown_open_raises.
    - eexists. by apply pdf_to_markdown_unavailable. }
  destruct Hrun as [evs Hrun].
  rewrite (convert_stores W inp pdf_bytes "" evs s Hbutton Hfile Hrun). simpl.
  split; [done|]. intros inp' client.
  apply translation_section_blocked. by rewrite lookup_insert_eq.
Qed.

(** X6.  The conversion of a PDF with at least one page, all of whose pages
    extract, stores a Markdown document that begins with the heading of
    page 1; it is not empty, so the translation section is open after it,
    even when no page has any text. *)
Theorem conversion_enables_translation (inp : inputs)
    (pdf_bytes : list Byte.byte) (p : page W) (pages : list (page W))
    (t : option string) (texts : list (option string)) (s : session) :
  analyze_button inp = true ->
  uploaded_pdf inp = Some pdf_bytes ->
  _PDFPLUMBER_AVAILABLE W = true ->
  pdfplumber_open W pdf_bytes = inr (p :: pages) ->
  Forall2 (fun p t => extract_text W p = inr t) (p :: pages) (t :: texts) ->
  (exists rest : string,
      (convert W inp s).1.2 !! "analysis_result"
      = Some (Some ("## Page 1" +:+ nl +:+ nl +:+ rest)))
  /\ truthy (default None ((convert W inp s).1.2 !! "analysis_result")) = true.
Proof.
  intros Hbutton Hfile Havail Hopen Hpages.
  pose proof (pdf_to_markdown_blocks pdf_bytes (p :: pages) (t :: texts) s
                Havail Hopen Hpages) as Hrun.
  assert (Hjoin : exists rest : string,
             PyStr.join (nl +:+ nl) (page_blocks (t :: texts))
             = page_block 1 t +:+ rest).
  { unfold page_blocks. rewrite imap_cons. apply join_cons. }
  destruct Hjoin as [rest Hjoin]. rewrite Hjoin in Hrun.
  rewrite (convert_stores W inp pdf_bytes _ [] s Hbutton Hfile Hrun).
  cbn [fst snd]. split.
  - exists (PyStr.strip (default "" t) +:+ rest).
    rewrite lookup_insert_eq. unfold page_block.
    by rewrite !append_assoc.
  - rewrite lookup_insert_eq. reflexivity.
Qed.

(** X7.  When the extraction of a page raises, the text of all pages is
    dropped, also that of the pages before it: the function returns the
    empty string and shows the exception of the first page that failed. *)
Theorem first_failing_page_discards_all (pdf_bytes : list Byte.byte)
    (good : list (page W)) (texts : list (option string)) (p : page W)
    (rest : list (page W)) (ex : exn) (s : session) :
  _PDFPLUMBER_AVAILABLE W = true ->
  pdfplumber_open W pdf_bytes = inr (good ++ p :: rest) ->
  Forall2 (fun p t => extract_text W p = inr t) good texts ->
  extract_text W p = inl ex ->
  pdf_to_markdown W pdf_bytes s
  = (Val "", s, [UI (Error (parsing_failed_msg W ex))]).
Proof.
  intros Havail Hopen Hgood Hp.
  unfold pdf_to_markdown. rewrite Havail. simpl.
  script_unfold. rewrite Hopen.
  by rewrite (extract_pages_first_failure good texts p rest ex Hgood Hp 1 []).
Qed.

End Conversion.

(** ** The language table *)

Lemma invert_snoc (items : list (string * string)) (k v : string) :
  invert (items ++ [(k, v)]) = <[v := k]> (invert items).
Proof. unfold invert. by rewrite foldl_app. Qed.

Lemma LANG_NAME_TO_CODE_invert : LANG_NAME_TO_CODE = invert DEEPL_SUPPORTED_LANGS.
Proof. reflexivity. Qed.

(** X8.  The inverted dict of line 59 holds nothing but the items it was
    built from, turned round; and when no two items have the same name, it
    holds every item: looking up a name gives the code it was listed with. *)
Theorem invert_lookup (items : list (string * string)) :
  (forall k v : string, invert items !! v = Some k -> (k, v) ∈ items)
  /\ (NoDup items.*2 ->
      forall k v : string, (k, v) ∈ items -> invert items !! v = Some k).
Proof.
  induction items as [|[k0 v0] items [IHsound IHcomplete]] using rev_ind.
  - split.
    + intros k v Hlookup. unfold invert in Hlookup. simpl in Hlookup.
      by rewrite lookup_empty in Hlookup.
    + intros _ k v Hin. by apply elem_of_nil in Hin.
  - rewrite invert_snoc. split.
    + intros k v Hlookup. apply elem_of_app.
      destruct (decide (v0 = v)) as [->|Hne].
      * rewrite lookup_insert_eq in Hlookup. injection Hlookup as ->.
        right. by apply list_elem_of_singleton.
      * rewrite lookup_insert_ne in Hlookup by done. left. by apply IHsound.
    + rewrite fmap_app. intros (Hnodup & Hfresh & _)%NoDup_app k v Hin.
      apply elem_of_app in Hin as [Hin|Hin].
      * assert (v0 <> v) as Hne.
        { intros ->. apply (Hfresh v).
          - by apply (list_elem_of_fmap_2 snd _ (k, v)).
          - by apply list_elem_of_singleton. }
        rewrite lookup_insert_ne by done. by apply IHcomplete.
      * apply list_elem_of_singleton in Hin. injection Hin as -> ->.
        by rewrite lookup_insert_eq.
Qed.

Section Table.

Context (W : World).

(** X9.  Every name that the select box offers is a key of the table: for
    such a target, in a session with the DeepL key entry, the DeepL path
    gets past the lookup of the code and sends its POST.  The [KeyError] of
    an unknown language cannot come from the select box. *)
Theorem selectbox_targets_supported (target : string)
    (src_md key : option string) (s : session) :
  target ∈ langs ->
  s !! "DEEPL_API_KEY" = Some key ->
  exists (code : string) (evs : list event),
    LANG_NAME_TO_CODE !! target = Some code
    /\ translate_deepl W target src_md s
       = (Val tt, s, Net (HttpPost (deepl_request key src_md code)) :: evs)
    /\ network_calls evs = [].
Proof.
  intros Htarget Hkey.
  pose proof langs_supported as Hall. rewrite Forall_forall in Hall.
  destruct (Hall target Htarget) as [code Hcode].
  destruct (translate_deepl_sends W target code src_md key s Hcode Hkey)
    as (evs & Hrun & Hevs).
  by exists code, evs.
Qed.

(** The calls of the translation section on the DeepL path, when it gets as
    far as the button. *)
Lemma translation_section_deepl_calls (inp : inputs)
    (client auth_key : option string) (code : string) (s : session) :
  truthy (default None (s !! "analysis_result")) = true ->
  s !! "DEEPL_API_KEY" = Some auth_key ->
  translation_provider inp = "DeepL" ->
  String.eqb (target inp) "English" = false ->
  LANG_NAME_TO_CODE !! target inp = Some code ->
  translate_button inp = true ->
  network_calls (translation_section W inp client s).2
  = [HttpPost (deepl_request auth_key (default None (s !! "analysis_result"))
                 code)].
Proof.
  intros Hmd Hkey Hprovider Htarget Hcode Hbutton.
  destruct (s !! "analysis_result") as [src_md|] eqn:Hsrc; [|done].
  destruct (translate_deepl_sends W (target inp) code src_md auth_key s
              Hcode Hkey) as (evs & Hsend & Hevs).
  unfold translation_section, credential_warnings, translate.
  rewrite Hprovider, Hbutton. script_unfold.
  rewrite Hsrc. simpl in Hmd |- *. rewrite Hmd, Htarget. simpl.
  rewrite Hkey.
  destruct (truthy auth_key); simpl; rewrite Hsrc, Hsend; simpl;
    rewrite ?network_calls_cons_ui; simpl; by rewrite Hevs.
Qed.

(** X10.  With the DeepL provider, a Markdown document, a supported target
    other than English and the button pressed, the translation section
    sends exactly one POST, with whatever the key entry holds: a missing or
    empty key adds the warning to what is shown and stops nothing. *)
Theorem deepl_posts_whatever_the_key (inp : inputs)
    (client auth_key : option string) (code : string) (s : session) :
  truthy (default None (s !! "analysis_result")) = true ->
  s !! "DEEPL_API_KEY" = Some auth_key ->
  translation_provider inp = "DeepL" ->
  String.eqb (target inp) "English" = false ->
  LANG_NAME_TO_CODE !! target inp = Some code ->
  translate_button inp = true ->
  network_calls (translation_section W inp client s).2
  = [HttpPost (deepl_request auth_key (default None (s !! "analysis_result"))
                 code)]
  /\ (truthy auth_key = false ->
      Warning "Add DeepL key for translation."
      ∈ shown (translation_section W inp client s).2).
Proof.
  intros Hmd Hkey Hprovider Htarget Hcode Hbutton. split.
  - by apply translation_section_deepl_calls.
  - intros Hfalsy.
    destruct (translation_section_deepl_posts W inp client auth_key code s
                Hmd Hkey Hprovider Htarget Hcode Hbutton) as [evs ->].
    rewrite Hfalsy. simpl. do 2 right. left.
Qed.

End Table.

(** ** The session across runs *)

Lemma init_lookup_openai (s : session) :
  init s !! "OPENAI_API_KEY" = Some (default None (s !! "OPENAI_API_KEY")).
Proof.
  unfold init, set_default.
  destruct (s !! "OPENAI_API_KEY") as [v|] eqn:Ho.
  - destruct (s !! "DEEPL_API_KEY") eqn:Hd.
    + by rewrite Ho.
    + by rewrite lookup_insert_ne, Ho.
  - rewrite lookup_insert_ne by done.
    destruct (s !! "DEEPL_API_KEY") eqn:Hd.
    + by rewrite lookup_insert_eq.
    + by rewrite lookup_insert_ne, lookup_insert_eq.
Qed.



Lemma init_has_keys (s : session) : has_keys s -> init s = s.
Proof.
  intros [[vo Ho] [vd Hd]]. unfold init, set_default. by rewrite Ho, Hd.
Qed.

Section Session.

Context (W : World).

Lemma main_grows (inp : inputs) : respects grows (main W inp).
Proof.
  pose proof (pdf_to_markdown_respects W grows) as Hpdf.
  pose proof (translation_section_respects W grows inp) as Htranslation.
  unfold main, sidebar, sidebar_openai, sidebar_deepl, openai_client, convert.
  respects_auto.
  all: intros s; apply dom_insert_subseteq.
Qed.

(** X11.  A run removes no entry of the session, and the session it leaves
    has both key entries, wherever the run stops. *)
Theorem main_session_grows (inp : inputs) (s : session) :
  dom s ⊆ dom (main W inp s).1.2
  /\ is_Some ((main W inp s).1.2 !! "OPENAI_API_KEY")
  /\ is_Some ((main W inp s).1.2 !! "DEEPL_API_KEY").
Proof.
  split; [apply main_grows|].
  rewrite main_init.
  destruct (after_init_run W inp (init s) (has_keys_init s))
    as [(s1 & ev1 & Hsb & ->)
       |(s1 & s2 & ev1 & ev2 & ev3 & _ & _ & _ & Hs2 & _ & ->)].
  - destruct (sidebar_safe inp (init s) (has_keys_init s)) as [Hs1 _].
    by rewrite Hsb in Hs1.
  - done.
Qed.

(** A run in which an OpenAI key is typed while none is stored. *)
Lemma openai_key_entry_run (inp : inputs) (s : session) :
  truthy (default None (s !! "OPENAI_API_KEY")) = false ->
  nonempty (okey inp) = true ->
  main W inp s
  = (Rerun,
     <["OPENAI_API_KEY" := Some (PyStr.strip (okey inp))]> (init s),
     [UI (Title "🔑 Configuration");
      UI (TextInput "OpenAI Key (o3-mini)");
      UI (Success "OpenAI key saved — reloading.")]).
Proof.
  intros Hunset Htyped. rewrite main_init.
  unfold after_init, sidebar, sidebar_openai. script_unfold.
  rewrite init_lookup_openai. simpl. rewrite Hunset. simpl.
  by rewrite Htyped.
Qed.

(** A run in which the reset button of a stored OpenAI key is pressed. *)
Lemma openai_key_reset_run (inp : inputs) (s : session) :
  truthy (default None (s !! "OPENAI_API_KEY")) = true ->
  reset_openai_key inp = true ->
  main W inp s
  = (Rerun, <["OPENAI_API_KEY" := None]> (init s),
     [UI (Title "🔑 Configuration");
      UI (Success "OpenAI key ✓");
      UI (Button "Reset OpenAI Key")]).
Proof.
  intros Hset Hreset. rewrite main_init.
  unfold after_init, sidebar, sidebar_openai. script_unfold.
  rewrite init_lookup_openai. simpl. rewrite Hset. simpl.
  by rewrite Hreset.
Qed.


(** X13.  A key that is only white space is stored as the empty string,
    which counts as no key: the session that the run leaves is one from
    which the same widget values give the same run again, ending at
    [st.rerun()] with the session unchanged. *)
Theorem blank_openai_key_repeats (inp : inputs) (s : session) :
  truthy (default None (s !! "OPENAI_API_KEY")) = false ->
  nonempty (okey inp) = true ->
  PyStr.strip (okey inp) = "" ->
  let s' := (main W inp s).1.2 in
  truthy (default None (s' !! "OPENAI_API_KEY")) = false
  /\ main W inp s' = (Rerun, s', (main W inp s).2).
Proof.
  intros Hunset Htyped Hblank s'.
  assert (Hs' : s' = <["OPENAI_API_KEY" := Some ""]> (init s)).
  { unfold s'. rewrite (openai_key_entry_run inp s Hunset Htyped). simpl.
    by rewrite Hblank. }
  assert (Hunset' : truthy (default None (s' !! "OPENAI_API_KEY")) = false).
  { by rewrite Hs', lookup_insert_eq. }
  split; [done|].
  rewrite (openai_key_entry_run inp s' Hunset' Htyped).
  rewrite (openai_key_entry_run inp s Hunset Htyped). simpl.
  rewrite Hblank. do 2 f_equal.
  rewrite init_has_keys.
  - rewrite Hs'. apply insert_insert_eq.
  - rewrite Hs'. apply has_keys_insert, has_keys_init.
Qed.

(** X14.  Typing a key and then pressing its reset button, in the next run,
    brings back the session of before the key: from a session without
    OpenAI key, the two runs leave the initialised session. *)
Theorem openai_key_reset_round_trip (enter reset : inputs) (s : session) :
  default None (s !! "OPENAI_API_KEY") = None ->
  nonempty (okey enter) = true ->
  PyStr.strip (okey enter) <> "" ->
  reset_openai_key reset = true ->
  (main W reset (main W enter s).1.2).1.2 = init s
  /\ (main W reset (main W enter s).1.2).1.1 = Rerun.
Proof.
  intros Hnone Htyped Hkey Hreset.
  assert (Hunset : truthy (default None (s !! "OPENAI_API_KEY")) = false)
    by by rewrite Hnone.
  rewrite (openai_key_entry_run enter s Hunset Htyped). simpl.
  set (s1 := <["OPENAI_API_KEY" := Some (PyStr.strip (okey enter))]> (init s)).
  assert (Hset : truthy (default None (s1 !! "OPENAI_API_KEY")) = true).
  { unfold s1. rewrite lookup_insert_eq. simpl.
    by destruct (PyStr.strip (okey enter)). }
  rewrite (openai_key_reset_run reset s1 Hset Hreset). simpl.
  split; [|done].
  rewrite init_has_keys by apply has_keys_insert, has_keys_init.
  unfold s1. rewrite insert_insert_eq. apply insert_id.
  by rewrite init_lookup_openai, Hnone.
Qed.



End Session.

(** ** The patch of [charset_normalizer.utils] *)

(** X17.  When the import fails the patch does nothing.  Otherwise the
    module has [is_cjk_uncommon] afterwards and keeps every attribute it
    had, [is_cjk_uncommon] included: the stub, which is false on every code
    point, is only put where the attribute was missing.  Patching a patched
    module changes nothing. *)
Theorem patch_charset_normalizer_keeps (imported : exn + gmap string attribute) :
  match imported with
  | inl _ => patch_charset_normalizer imported = None
  | inr _cnu =>
      exists patched : gmap string attribute,
        patch_charset_normalizer imported = Some patched
        /\ is_Some (patched !! "is_cjk_uncommon")
        /\ (forall (k : string) (a : attribute),
              _cnu !! k = Some a -> patched !! k = Some a)
        /\ (forall k : string,
              k <> "is_cjk_uncommon" -> patched !! k = _cnu !! k)
        /\ (_cnu !! "is_cjk_uncommon" = None ->
            exists f : Z -> bool,
              patched !! "is_cjk_uncommon" = Some (CodePointTest f)
              /\ forall cp : Z, f cp = false)
        /\ patch_charset_normalizer (inr patched) = Some patched
  end.
Proof.
  destruct imported as [ex|_cnu]; [done|].
  unfold patch_charset_normalizer.
  destruct (_cnu !! "is_cjk_uncommon") as [a|] eqn:Hattr.
  - rewrite bool_decide_eq_true_2 by done.
    exists _cnu. split; [done|]. split; [by rewrite Hattr|].
    split; [done|]. split; [done|]. split; [by rewrite Hattr|].
    by rewrite Hattr, bool_decide_eq_true_2.
  - rewrite bool_decide_eq_false_2 by (by intros [? ?]).
    eexists. split; [done|]. split; [by rewrite lookup_insert_eq|].
    split; [|split; [|split]].
    + intros k a Hk. rewrite lookup_insert_ne; [done|].
      intros <-. congruence.
    + intros k Hk. by rewrite lookup_insert_ne.
    + intros _. eexists. by rewrite lookup_insert_eq.
    + by rewrite lookup_insert_eq, bool_decide_eq_true_2.
Qed.

(** * Concrete runs of the further properties *)

Lemma main_calls_at_most_once_witness :
  network_calls
    (main demo_world (widgets "DeepL" None false "French" false) converted).2
  = [].
Proof.
  apply (proj1 (proj2 (main_calls_at_most_once demo_world
                        (widgets "DeepL" None false "French" false) converted))).
  reflexivity.
Defined.

Lemma main_call_contents_witness :
  translation_provider (widgets "DeepL" None false "French" true) = "DeepL"
  /\ exists code : string,
      LANG_NAME_TO_CODE !! target (widgets "DeepL" None false "French" true)
      = Some code
      /\ deepl_request None (Some hello_md) "FR"
         = {| url := "https://api-free.deepl.com/v2/translate";
              data_auth_key :=
                default None
                  ((main demo_world (widgets "DeepL" None false "French" true)
                      converted).1.2 !! "DEEPL_API_KEY");
              data_text :=
                default None
                  ((main demo_world (widgets "DeepL" None false "French" true)
                      converted).1.2 !! "analysis_result");
              data_target_lang := code;
              timeout := 30 |}.
Proof.
  apply (main_call_contents demo_world
           (widgets "DeepL" None false "French" true) converted
           (HttpPost (deepl_request None (Some hello_md) "FR"))).
  vm_compute. constructor.
Defined.

Lemma failed_conversion_discards_markdown_witness :
  (convert demo_world (widgets "DeepL" (Some []) true "French" false)
     converted).1.2
  = <["analysis_result" := Some ""]> converted.
Proof.
  apply (failed_conversion_discards_markdown demo_world
           (widgets "DeepL" (Some []) true "French" false) [] converted).
  - reflexivity.
  - reflexivity.
  - right. by eexists.
Defined.

Lemma conversion_enables_translation_witness :
  truthy
    (default None
       ((convert demo_world
           (widgets "DeepL" (Some [Byte.x25; Byte.x50]) true "French" false)
           ∅).1.2 !! "analysis_result")) = true.
Proof.
  apply (conversion_enables_translation demo_world
           (widgets "DeepL" (Some [Byte.x25; Byte.x50]) true "French" false)
           [Byte.x25; Byte.x50] (inr (Some (" Hello" +:+ nl))) [inr None]
           (Some (" Hello" +:+ nl)) [None] ∅).
  - reflexivity.
  - reflexivity.
  - reflexivity.
  - reflexivity.
  - repeat constructor.
Defined.

Lemma first_failing_page_discards_all_witness :
  pdf_to_markdown demo_world [Byte.x01] ∅
  = (Val "", ∅,
     [UI (Error (parsing_failed_msg demo_world
                   (LibraryError "Unexpected EOF")))]).
Proof.
  apply (first_failing_page_discards_all demo_world [Byte.x01]
           [inr (Some "Hello")] [Some "Hello"]
           (inl (LibraryError "Unexpected EOF")) []
           (LibraryError "Unexpected EOF") ∅).
  - reflexivity.
  - reflexivity.
  - repeat constructor.
  - reflexivity.
Defined.

Lemma invert_lookup_witness :
  LANG_NAME_TO_CODE !! "Norwegian (Bokmål)" = Some "NB".
Proof.
  apply (proj2 (invert_lookup DEEPL_SUPPORTED_LANGS)).
  - apply (bool_decide_unpack _). vm_compute. exact I.
  - apply (bool_decide_unpack _). vm_compute. exact I.
Defined.

Lemma selectbox_targets_supported_witness :
  exists (code : string) (evs : list event),
    LANG_NAME_TO_CODE !! "French" = Some code
    /\ translate_deepl demo_world "French" (Some hello_md) converted
       = (Val tt, converted,
          Net (HttpPost (deepl_request None (Some hello_md) code)) :: evs)
    /\ network_calls evs = [].
Proof.
  apply (selectbox_targets_supported demo_world "French" (Some hello_md) None
           converted).
  - apply (bool_decide_unpack _). vm_compute. exact I.
  - vm_compute. reflexivity.
Defined.

Lemma deepl_posts_whatever_the_key_witness :
  network_calls
    (translation_section demo_world (widgets "DeepL" None false "French" true)
       None converted).2
  = [HttpPost (deepl_request None
                 (default None (converted !! "analysis_result")) "FR")]
  /\ (truthy None = false ->
      Warning "Add DeepL key for translation."
      ∈ shown
          (translation_section demo_world
             (widgets "DeepL" None false "French" true) None converted).2).
Proof.
  apply (deepl_posts_whatever_the_key demo_world
           (widgets "DeepL" None false "French" true) None None "FR" converted).
  - vm_compute. reflexivity.
  - vm_compute. reflexivity.
  - reflexivity.
  - reflexivity.
  - vm_compute. reflexivity.
  - reflexivity.
Defined.


Lemma blank_openai_key_repeats_witness :
  main demo_world
    (with_keys "   " "" false (widgets "o3-mini" None false "French" false))
    (main demo_world
       (with_keys "   " "" false (widgets "o3-mini" None false "French" false))
       ∅).1.2
  = (Rerun,
     (main demo_world
        (with_keys "   " "" false (widgets "o3-mini" None false "French" false))
        ∅).1.2,
     (main demo_world
        (with_keys "   " "" false (widgets "o3-mini" None false "French" false))
        ∅).2).
Proof.
  apply (blank_openai_key_repeats demo_world
           (with_keys "   " "" false
              (widgets "o3-mini" None false "French" false)) ∅).
  - reflexivity.
  - reflexivity.
  - vm_compute. reflexivity.
Defined.

Lemma openai_key_reset_round_trip_witness :
  (main demo_world
     (with_keys "" "" true (widgets "o3-mini" None false "French" false))
     (main demo_world
        (with_keys "sk-test" "" false
           (widgets "o3-mini" None false "French" false))
        converted).1.2).1.2
  = init converted.
Proof.
  apply (openai_key_reset_round_trip demo_world
           (with_keys "sk-test" "" false
              (widgets "o3-mini" None false "French" false))
           (with_keys "" "" true (widgets "o3-mini" None false "French" false))
           converted).
  - vm_compute. reflexivity.
  - reflexivity.
  - vm_compute. discriminate.
  - reflexivity.
Defined.


(** A module that lacks the attribute gets the stub; one that has it keeps
    its own. *)
Lemma patch_charset_normalizer_keeps_witness :
  exists patched : gmap string attribute,
    patch_charset_normalizer (inr {["is_cjk" := Object "is_cjk"]}) = Some patched
    /\ is_Some (patched !! "is_cjk_uncommon")
    /\ patched !! "is_cjk" = Some (Object "is_cjk").
Proof.
  destruct (patch_charset_normalizer_keeps (inr {["is_cjk" := Object "is_cjk"]}))
    as (patched & Hpatch & Hhas & Hkeeps & _).
  exists patched. split; [exact Hpatch|]. split; [exact Hhas|].
  apply Hkeeps. vm_compute. reflexivity.
Defined.
